(** * Pangram haiku application: routes/index.js

    A shallow embedding of the Mongoose schema, its validators and the three
    Express routes of [routes/index.js], together with the properties of the
    written specification that concern them.

    Strings are JavaScript strings: finite sequences of UTF-16 code units.
    Expressions that may raise a JavaScript exception are computed in the
    [completion] monad. *)

From Stdlib Require Import Ascii String DecimalString ZArith NArith Bool Lia.
From Stdlib Require Import Sorted Permutation List.
Import ListNotations.

Set Warnings "-register-all".
Local Open Scope Z_scope.

(** ** JavaScript strings *)

Definition jsstring := list N.

(** An ASCII literal of the source text as a sequence of code units. *)
Definition lit (s : string) : jsstring :=
  map N_of_ascii (list_ascii_of_string s).

Fixpoint jsstring_eqb (a b : jsstring) : bool :=
  match a, b with
  | [], [] => true
  | x :: a', y :: b' => N.eqb x y && jsstring_eqb a' b'
  | _, _ => false
  end.

(** [Array.prototype.join] on an array of strings. *)
Fixpoint join (sep : jsstring) (parts : list jsstring) : jsstring :=
  match parts with
  | [] => []
  | [p] => p
  | p :: rest => p ++ sep ++ join sep rest
  end.

(** ** Completions *)

Inductive JsError : Type := TypeError.

Inductive completion (A : Type) : Type :=
| Normal (a : A)
| Throw (e : JsError).
Arguments Normal {A} a.
Arguments Throw {A} e.

Definition bind {A B} (c : completion A) (k : A -> completion B) : completion B :=
  match c with
  | Normal a => k a
  | Throw e => Throw e
  end.

Notation "x <- c ;; k" := (bind c (fun x => k))
  (at level 61, c at next level, right associativity).

(** ** Numbers as text

    [Number::toString] works from the shortest decimal form of a Number:
    its significant digits [ds] (no trailing zero) and the position [n] of
    the decimal point after the first [n] of them. *)

Definition digits_of_positive (p : positive) : jsstring :=
  lit (NilEmpty.string_of_uint (Pos.to_uint p)).

Fixpoint drop_zeros (s : jsstring) : jsstring :=
  match s with
  | 48%N :: s' => drop_zeros s'
  | _ => s
  end.

Definition strip_trailing_zeros (s : jsstring) : jsstring :=
  rev (drop_zeros (rev s)).

Definition zeros (n : Z) : jsstring := repeat 48%N (Z.to_nat n).

Definition integer_text (z : Z) : jsstring :=
  match z with
  | Z0 => lit "0"
  | Zpos p => digits_of_positive p
  | Zneg p => lit "-" ++ digits_of_positive p
  end.

(** The text of the positive Number with digits [ds] and point position
    [n]. *)
Definition decimal_text (ds : jsstring) (n : Z) : jsstring :=
  let k := Z.of_nat (length ds) in
  if (k <=? n) && (n <=? 21) then ds ++ zeros (n - k)
  else if (0 <? n) && (n <=? 21) then
    firstn (Z.to_nat n) ds ++ lit "." ++ skipn (Z.to_nat n) ds
  else if (-6 <? n) && (n <=? 0) then lit "0." ++ zeros (- n) ++ ds
  else
    let exponent :=
      (if 0 <? n - 1 then lit "e+" else lit "e-") ++ integer_text (Z.abs (n - 1)) in
    match ds with
    | [d] => [d] ++ exponent
    | d :: rest => [d] ++ lit "." ++ rest ++ exponent
    | [] => []
    end.

(** The text of the Number whose shortest decimal form is [m * 10^e]. *)
Definition number_text (m e : Z) : jsstring :=
  match m with
  | Z0 => lit "0"
  | Zpos p =>
      let all := digits_of_positive p in
      decimal_text (strip_trailing_zeros all) (Z.of_nat (length all) + e)
  | Zneg p =>
      let all := digits_of_positive p in
      lit "-" ++ decimal_text (strip_trailing_zeros all) (Z.of_nat (length all) + e)
  end.

(** ** The values the routes compute with

    The primitive values of the handlers and validators: [undefined],
    [null], booleans, strings, [NaN] and the integral Numbers.  [VNum z] is
    the Number whose shortest decimal form is the integer [z]; the routes
    make such Numbers from string lengths and from [parseInt]. *)

Inductive JsValue : Type :=
| VUndefined
| VNull
| VBool (b : bool)
| VNum (z : Z)
| VNaN
| VStr (s : jsstring).

Module JS.

(** ToString of a primitive value. *)
Definition ToString (v : JsValue) : jsstring :=
  match v with
  | VUndefined => lit "undefined"
  | VNull => lit "null"
  | VBool true => lit "true"
  | VBool false => lit "false"
  | VNum z => number_text z 0
  | VNaN => lit "NaN"
  | VStr s => s
  end.

(** ToBoolean, as used by [||] and [if]. *)
Definition truthy (v : JsValue) : bool :=
  match v with
  | VUndefined | VNull | VNaN => false
  | VBool b => b
  | VNum z => negb (z =? 0)
  | VStr s => match s with [] => false | _ => true end
  end.

(** [a || b] *)
Definition or (a b : JsValue) : JsValue :=
  if truthy a then a else b.

Definition is_numeric (v : JsValue) : bool :=
  match v with
  | VUndefined | VNull | VBool _ | VNum _ | VNaN => true
  | _ => false
  end.

Definition ToNumber_prim (v : JsValue) : JsValue :=
  match v with
  | VNull => VNum 0
  | VBool b => VNum (if b then 1 else 0)
  | VNum z => VNum z
  | _ => VNaN
  end.

(** [a + b] on primitive values: numeric addition when neither operand is
    a string, string concatenation otherwise.  The sums the routes form are
    sums of string lengths, which are exact. *)
Definition add (a b : JsValue) : JsValue :=
  if is_numeric a && is_numeric b then
    match ToNumber_prim a, ToNumber_prim b with
    | VNum x, VNum y => VNum (x + y)
    | _, _ => VNaN
    end
  else VStr (ToString a ++ ToString b).

(** [v.name] on a primitive value, for a name that is not an index.
    Reading a property of [undefined] or [null] raises a TypeError. *)
Definition get (v : JsValue) (name : jsstring) : completion JsValue :=
  match v with
  | VUndefined | VNull => Throw TypeError
  | VStr s =>
      if jsstring_eqb name (lit "length")
      then Normal (VNum (Z.of_nat (length s))) else Normal VUndefined
  | _ => Normal VUndefined
  end.

(** [s.charAt(i)] *)
Definition charAt (s : jsstring) (i : nat) : jsstring :=
  match nth_error s i with
  | Some c => [c]
  | None => []
  end.

Fixpoint starts_with (pat s : jsstring) : bool :=
  match pat, s with
  | [], _ => true
  | p :: pat', c :: s' => N.eqb p c && starts_with pat' s'
  | _ :: _, [] => false
  end.

Fixpoint indexOf_from (s pat : jsstring) (pos : Z) : Z :=
  if starts_with pat s then pos
  else match s with
       | [] => -1
       | _ :: s' => indexOf_from s' pat (pos + 1)
       end.

(** [s.indexOf(pat)] *)
Definition indexOf (s pat : jsstring) : Z := indexOf_from s pat 0.

(** *** parseInt *)

Definition is_white_space (c : N) : bool :=
  existsb (N.eqb c)
    [9; 10; 11; 12; 13; 32; 160; 5760; 8232; 8233; 8239; 8287; 12288; 65279]%N
  || ((8192 <=? c) && (c <=? 8202))%N.

Fixpoint trim_start (s : jsstring) : jsstring :=
  match s with
  | c :: s' => if is_white_space c then trim_start s' else s
  | [] => []
  end.

Definition digit_value (c : N) : option Z :=
  if ((48 <=? c) && (c <=? 57))%N then Some (Z.of_N c - 48)
  else if ((97 <=? c) && (c <=? 122))%N then Some (Z.of_N c - 87)
  else if ((65 <=? c) && (c <=? 90))%N then Some (Z.of_N c - 55)
  else None.

(** The value of the longest prefix of radix-[r] digits, [None] when it
    is empty. *)
Fixpoint digits (r : Z) (s : jsstring) (acc : option Z) : option Z :=
  match s with
  | [] => acc
  | c :: s' =>
      match digit_value c with
      | Some d =>
          if d <? r
          then digits r s' (Some (r * match acc with Some a => a | None => 0 end + d))
          else acc
      | None => acc
      end
  end.

(** [parseInt] of a string, with no radix argument.  The result is the
    integer read, before it is rounded to a Number; the routes only compare
    it with 5 and 7, which rounding cannot reach from another integer. *)
Definition parseInt_string (input : jsstring) : JsValue :=
  let s := trim_start input in
  let '(sign, s) :=
    match s with
    | 45%N :: s' => (-1, s')
    | 43%N :: s' => (1, s')
    | _ => (1, s)
    end in
  let '(radix, s) :=
    match s with
    | 48%N :: 120%N :: s' => (16, s')
    | 48%N :: 88%N :: s' => (16, s')
    | _ => (10, s)
    end in
  match digits radix s None with
  | Some n => VNum (sign * n)
  | None => VNaN
  end.

(** [a == b] for two Number operands. *)
Definition number_eq (a b : JsValue) : bool :=
  match a, b with
  | VNum x, VNum y => x =? y
  | _, _ => false
  end.

End JS.

(** ** What the word-info service may send

    The body [unirest] hands over is whatever the response held: parsed
    JSON, or the text of the response when it is not JSON.  A Number is
    given by its shortest decimal form [m * 10^e], which is what
    [Number::toString] prints; [JInfinity] is a Number too large for a
    double.  An object is the list of its own properties, the first
    binding of a name being the visible one. *)

Inductive Json : Type :=
| JNull
| JBool (b : bool)
| JNumber (m e : Z)
| JInfinity (negative : bool)
| JString (s : jsstring)
| JArray (elems : list Json)
| JObject (props : list (jsstring * Json)).

Module JSON.

Fixpoint lookup (name : jsstring) (props : list (jsstring * Json)) : option Json :=
  match props with
  | [] => None
  | (k, v) :: rest => if jsstring_eqb k name then Some v else lookup name rest
  end.

(** [data.name] for a name that is neither an index nor [length]; [None]
    is [undefined], as a value and as a result. *)
Definition get (data : option Json) (name : jsstring) : completion (option Json) :=
  match data with
  | None | Some JNull => Throw TypeError
  | Some (JObject props) => Normal (lookup name props)
  | Some _ => Normal None
  end.

Fixpoint join_texts (texts : list (completion jsstring)) : completion (list jsstring) :=
  match texts with
  | [] => Normal []
  | t :: rest => x <- t ;; xs <- join_texts rest ;; Normal (x :: xs)
  end.

(** ToString.  An array is joined with commas, [null] elements being
    empty.  A plain object prints through [Object.prototype.toString]
    unless it has an own property [toString]: that one is not callable,
    and since [valueOf] gives the object back the conversion raises a
    TypeError. *)
Fixpoint ToString (v : Json) : completion jsstring :=
  match v with
  | JNull => Normal (lit "null")
  | JBool true => Normal (lit "true")
  | JBool false => Normal (lit "false")
  | JNumber m e => Normal (number_text m e)
  | JInfinity false => Normal (lit "Infinity")
  | JInfinity true => Normal (lit "-Infinity")
  | JString s => Normal s
  | JArray elems =>
      texts <- join_texts
                 ((fix each (l : list Json) : list (completion jsstring) :=
                     match l with
                     | [] => []
                     | e :: l' =>
                         match e with
                         | JNull => Normal []
                         | _ => ToString e
                         end :: each l'
                     end) elems) ;;
      Normal (join (lit ",") texts)
  | JObject props =>
      match lookup (lit "toString") props with
      | Some _ => Throw TypeError
      | None => Normal (lit "[object Object]")
      end
  end.

(** [parseInt(v)] with no radix argument. *)
Definition parseInt (v : option Json) : completion JsValue :=
  match v with
  | None => Normal (JS.parseInt_string (lit "undefined"))
  | Some j => text <- ToString j ;; Normal (JS.parseInt_string text)
  end.

End JSON.

(** ASCII case folding: what [String.prototype.toLowerCase] does on text
    whose code units are all below 128. *)
Definition ascii_toLowerCase (s : jsstring) : jsstring :=
  map (fun c => if ((65 <=? c) && (c <=? 90))%N then (c + 32)%N else c) s.

(** ** The data model *)

(** A Pangram document.  The three paths have schema type String, so a
    path holds a string or is [undefined] ([None]). *)
Record Pangram : Type := {
  _id : N;
  line1_5 : option jsstring;
  line2_7 : option jsstring;
  line3_5 : option jsstring
}.

(** The value read from a path of a document, or from a query parameter. *)
Definition field (f : option jsstring) : JsValue :=
  match f with
  | Some s => VStr s
  | None => VUndefined
  end.

Inductive Path : Type := Line1 | Line2 | Line3.

Definition path_name (p : Path) : jsstring :=
  match p with
  | Line1 => lit "line1_5"
  | Line2 => lit "line2_7"
  | Line3 => lit "line3_5"
  end.

Definition getValue (doc : Pangram) (p : Path) : JsValue :=
  match p with
  | Line1 => field (line1_5 doc)
  | Line2 => field (line2_7 doc)
  | Line3 => field (line3_5 doc)
  end.

(** What [unirest] hands to the [end] callback, of which the route reads
    only [body] ([None] when there is none, as after a failed request),
    and one fact about when the callback runs.  [overdue] matters only for
    a lookup that Mongoose 3.x starts on a path that has already failed:
    it says that the callback of this lookup runs after the response to
    the request has gone out. *)
Record Result : Type := { body : option Json; overdue : bool }.

(** The word-info service as seen during one request: the result of the
    lookup issued for a path with a given [word] parameter. *)
Definition Network := Path -> JsValue -> Result.

(** [err.errors] of a Mongoose ValidationError: for each path at most one
    ValidatorError, of which the route reads the [message]. *)
Module ValidationError.
Record t : Type := {
  line1_5 : option jsstring;
  line2_7 : option jsstring;
  line3_5 : option jsstring
}.
End ValidationError.

(** [request.query], each parameter given once (a string) or not at all. *)
Module Query.
Record t : Type := {
  error : option jsstring;
  line1_5 : option jsstring;
  line2_7 : option jsstring;
  line3_5 : option jsstring
}.
End Query.

Record Locals : Type := {
  l_error : JsValue;
  l_line1_5 : JsValue;
  l_line2_7 : JsValue;
  l_line3_5 : JsValue;
  l_pangrams : list Pangram;
  l_layout : jsstring
}.

(** How a request ends: a redirect, a rendered view, an error passed on
    to Express ([toss(err)]), or an exception that nothing catches before
    any answer is sent. *)
Inductive Response : Type :=
| Redirect (url : jsstring)
| Render (view : jsstring) (locals : Locals)
| Tossed (err : jsstring)
| Uncaught (e : JsError).

(** The collection in insertion order, and the next ObjectId of the server
    process.  ObjectIds made by one process compare in the order they were
    made; they are numbered here. *)
Record World : Type := {
  pangrams : list Pangram;
  next_id : N
}.

(** A validator of a path: the function, its message, whether it takes a
    callback (Mongoose goes by the arity of the function), and for one
    that does whether its callback is [overdue]. *)
Record Validator : Type := {
  v_fn : Pangram -> JsValue -> completion bool;
  v_message : jsstring;
  v_async : bool;
  v_overdue : JsValue -> bool
}.

(** What validating one path comes to: the error the path reports (or the
    exception that keeps it from reporting), whether the report had to wait
    for a callback, and whether a callback started after the path had
    reported raises an exception before the response is out. *)
Record PathRun : Type := {
  report : completion (option jsstring);
  waited : bool;
  late_crash : bool
}.

(** ** Sample requests *)

Definition start : World := {| pangrams := []; next_id := 0 |}.

Definition haiku : Query.t :=
  {| Query.error := None;
     Query.line1_5 := Some (lit "The quick brown fox jumps");
     Query.line2_7 := Some (lit "over the lazy dog, then");
     Query.line3_5 := Some (lit "sleeps beneath the sky") |}.

Definition frog : Query.t :=
  {| Query.error := None;
     Query.line1_5 := Some (lit "An old silent pond");
     Query.line2_7 := Some (lit "A frog jumps into the pond");
     Query.line3_5 := Some (lit "Splash! Silence again") |}.

Definition only_first_line : Query.t :=
  {| Query.error := None;
     Query.line1_5 := Some (lit "An old silent pond");
     Query.line2_7 := None;
     Query.line3_5 := None |}.

(** A reply of the word-info service. *)
Definition word_info (syllables : string) : Result :=
  {| body := Some (JObject [(lit "flags", JString (lit "bc"));
                            (lit "syllables", JString (lit syllables))]);
     overdue := false |}.

(** A service that finds 5, 7 and 5 syllables. *)
Definition service_575 : Network :=
  fun p _ => match p with
             | Line1 => word_info "5"
             | Line2 => word_info "7"
             | Line3 => word_info "5"
             end.

(** A service that finds 5, 6 and 5 syllables. *)
Definition service_565 : Network :=
  fun p _ => match p with
             | Line1 => word_info "5"
             | Line2 => word_info "6"
             | Line3 => word_info "5"
             end.

(** A service whose first lookup fails at the network level: [unirest]
    then passes a result without a [body]. *)
Definition service_down : Network :=
  fun p _ => match p with
             | Line1 => {| body := None; overdue := false |}
             | _ => word_info "5"
             end.

(** A service that answers with a page of text instead of JSON. *)
Definition service_garbled : Network :=
  fun _ _ => {| body := Some (JString (lit "<html>Service Unavailable</html>"));
                overdue := false |}.

(** A service that is down altogether. *)
Definition service_off : Network :=
  fun _ _ => {| body := None; overdue := false |}.

(** A service that sends the counts as the Numbers 5e21, 7e21 and 5e21. *)
Definition service_e21 : Network :=
  fun p _ => {| body := Some (JObject [(lit "syllables",
                                        JNumber (match p with Line2 => 7 | _ => 5 end) 21)]);
                overdue := false |}.

(** A second pangram. *)
Definition jugs : Query.t :=
  {| Query.error := None;
     Query.line1_5 := Some (lit "Pack my box with five");
     Query.line2_7 := Some (lit "dozen liquor jugs, and then");
     Query.line3_5 := Some (lit "go home again") |}.

Definition no_lines : Query.t :=
  {| Query.error := None; Query.line1_5 := None;
     Query.line2_7 := None; Query.line3_5 := None |}.

(** Two submissions that differ in where the first line ends. *)
Definition salt_and_pepper : Query.t :=
  {| Query.error := None;
     Query.line1_5 := Some (lit "salt&line2_7=pepper");
     Query.line2_7 := Some (lit "and a pinch of thyme");
     Query.line3_5 := Some (lit "for the soup") |}.

Definition salt : Query.t :=
  {| Query.error := None;
     Query.line1_5 := Some (lit "salt");
     Query.line2_7 := Some (lit "pepper&line2_7=and a pinch of thyme");
     Query.line3_5 := Some (lit "for the soup") |}.

Section Routes.

(** [String.prototype.toLowerCase], the Unicode case mapping. *)
Variable toLowerCase : jsstring -> jsstring.

(** Whether Mongoose still calls the validators declared after one that
    has failed on the same path (3.x does, 4.x does not). *)
Variable run_after_failure : bool.

(** [v.toLowerCase()] *)
Definition call_toLowerCase (v : JsValue) : completion jsstring :=
  match v with
  | VStr s => Normal (toLowerCase s)
  | _ => Throw TypeError
  end.

(** *** Schema methods and validators *)

Definition character_count (this : Pangram) : completion JsValue :=
  a <- JS.get (field (line1_5 this)) (lit "length") ;;
  b <- JS.get (field (line2_7 this)) (lit "length") ;;
  c <- JS.get (field (line3_5 this)) (lit "length") ;;
  Normal (JS.add (JS.add a b) c).

Definition letters : jsstring := lit "zqxjkvbpygfwmucldrhsnioate".

(** The loop [for (var i = ...; i < 26; i++)] with [n] iterations left;
    its value is the final [is_pangram]. *)
Fixpoint letter_loop (s : jsstring) (i n : nat) : bool :=
  match n with
  | O => true
  | S n' =>
      if JS.indexOf s (JS.charAt letters i) =? -1 then false
      else letter_loop s (S i) n'
  end.

Definition pangram_validator (this : Pangram) (value : JsValue) : completion bool :=
  s <- call_toLowerCase
         (JS.add (JS.add (JS.or (field (line1_5 this)) (VStr []))
                         (JS.or (field (line2_7 this)) (VStr [])))
                 (JS.or (field (line3_5 this)) (VStr []))) ;;
  Normal (letter_loop s 0 26).

(** [unirest_get] is the lookup with its [word] parameter still open; the
    result is the argument given to [callback]. *)
Definition validate_syllables (unirest_get : JsValue -> Result)
    (value : JsValue) (required_syllables : Z) : completion bool :=
  let result := unirest_get value in
  let data := body result in
  field_syllables <- JSON.get data (lit "syllables") ;;
  syllables <- JSON.parseInt field_syllables ;;
  Normal (JS.number_eq syllables (VNum required_syllables)).

(** *** Mongoose

    The part of the library the routes rely on, as Mongoose 3.8 and 4.x
    (the releases that take validators with a callback) document and
    implement it: [required] comes first among the validators of a path,
    a path keeps the error of its first failing validator only, [save]
    validates before it writes, and an exception raised in the callback of
    a lookup is not caught. *)

(** Modelled from Mongoose, which is not in the repository: the built-in
    validator that [required: true] puts first on a String path.  It
    accepts a string that is not empty ([checkRequired]), and its message
    is the library's default. *)
Definition required_validator (p : Path) : Validator :=
  {| v_fn := fun _ value =>
       Normal match value with VStr (_ :: _) => true | _ => false end;
     v_message := lit "Path `" ++ path_name p ++ lit "` is required.";
     v_async := false;
     v_overdue := fun _ => false |}.

Definition required_syllables (p : Path) : Z :=
  match p with
  | Line1 => 5
  | Line2 => 7
  | Line3 => 5
  end.

Definition syllables_message (p : Path) : jsstring :=
  match p with
  | Line1 => lit "Line 1 doesn't have 5 syllables."
  | Line2 => lit "Line 2 doesn't have 7 syllables."
  | Line3 => lit "Line 3 doesn't have 5 syllables."
  end.

Definition syllables_validator (net : Network) (p : Path) : Validator :=
  {| v_fn := fun _ value => validate_syllables (net p) value (required_syllables p);
     v_message := syllables_message p;
     v_async := true;
     v_overdue := fun value => overdue (net p value) |}.

Definition pangram_rule : Validator :=
  {| v_fn := pangram_validator; v_message := lit "Not a pangram!";
     v_async := false; v_overdue := fun _ => false |}.

(** The validators of each path of [PangramSchema], in the order they
    were declared. *)
Definition PangramSchema (net : Network) (p : Path) : list Validator :=
  match p with
  | Line1 => [required_validator Line1; syllables_validator net Line1]
  | Line2 => [required_validator Line2; pangram_rule; syllables_validator net Line2]
  | Line3 => [required_validator Line3; syllables_validator net Line3]
  end.

(** Modelled from Mongoose: [SchemaType.prototype.doValidate].  The
    validators of a path are called in turn and the first failure is what
    the path reports; [err] is the failure recorded so far.  Once a failure
    is recorded, 4.x calls no further validator of the path, while 3.x
    still calls them and ignores what they say: an exception in such a late
    callback does not change the report, it is an uncaught exception of its
    own.  The validators without a callback report at once, the lookup when
    it answers, and every path of the schema has its lookup last. *)
Fixpoint doValidate (validators : list Validator) (scope : Pangram)
    (value : JsValue) (err : option jsstring) : PathRun :=
  match validators with
  | [] => {| report := Normal err; waited := false; late_crash := false |}
  | v :: rest =>
      match err with
      | Some _ =>
          if run_after_failure
          then
            let run := doValidate rest scope value err in
            match v_fn v scope value with
            | Normal _ => run
            | Throw e =>
                if v_async v
                then {| report := report run; waited := waited run;
                        late_crash := late_crash run || negb (v_overdue v value) |}
                else {| report := Throw e; waited := waited run;
                        late_crash := late_crash run |}
            end
          else {| report := Normal err; waited := false; late_crash := false |}
      | None =>
          match v_fn v scope value with
          | Throw e => {| report := Throw e; waited := v_async v; late_crash := false |}
          | Normal ok =>
              let run :=
                doValidate rest scope value (if ok then None else Some (v_message v)) in
              {| report := report run; waited := v_async v || waited run;
                 late_crash := late_crash run |}
          end
      end
  end.

Definition validatePath (net : Network) (doc : Pangram) (p : Path) : PathRun :=
  doValidate (PangramSchema net p) doc (getValue doc p) None.

(** Modelled from Mongoose: [Document.prototype.validate], [null] when
    every path is valid.  The callback of [validate] runs once the three
    paths have reported.  A path that cannot report because its lookup
    raised an exception leaves the request without an answer.  An exception
    in a late callback comes before the answer only if some path had to
    wait for its lookup and the late callback is not [overdue]. *)
Definition validate (net : Network) (doc : Pangram)
  : completion (option ValidationError.t) :=
  let r1 := validatePath net doc Line1 in
  let r2 := validatePath net doc Line2 in
  let r3 := validatePath net doc Line3 in
  e1 <- report r1 ;;
  e2 <- report r2 ;;
  e3 <- report r3 ;;
  if (late_crash r1 || late_crash r2 || late_crash r3)
     && (waited r1 || waited r2 || waited r3)
  then Throw TypeError
  else
    match e1, e2, e3 with
    | None, None, None => Normal None
    | _, _, _ =>
        Normal (Some {| ValidationError.line1_5 := e1;
                        ValidationError.line2_7 := e2;
                        ValidationError.line3_5 := e3 |})
    end.

(** Modelled from Mongoose: [new Pangram({...})].  The document gets its
    [_id] when it is made, before anything is validated or written. *)
Definition new_Pangram (w : World) (l1 l2 l3 : option jsstring) : Pangram * World :=
  ({| _id := next_id w; line1_5 := l1; line2_7 := l2; line3_5 := l3 |},
   {| pangrams := pangrams w; next_id := N.succ (next_id w) |}).

(** Modelled from Mongoose: [doc.save(callback)].  Validation runs first
    and an invalid document is not written; the database takes every
    write.  The second component is the [err] given to the callback. *)
Definition save (w : World) (net : Network) (doc : Pangram)
  : World * completion (option ValidationError.t) :=
  match validate net doc with
  | Normal None =>
      ({| pangrams := pangrams w ++ [doc]; next_id := next_id w |}, Normal None)
  | r => (w, r)
  end.

Fixpoint insert_desc (d : Pangram) (l : list Pangram) : list Pangram :=
  match l with
  | [] => [d]
  | x :: l' => if (_id x <=? _id d)%N then d :: l else x :: insert_desc d l'
  end.

(** Modelled from MongoDB: [Pangram.find().sort({_id: -1})], the documents
    of the collection by descending [_id]. *)
Definition find_sort_id_desc (w : World) : list Pangram :=
  fold_right insert_desc [] (pangrams w).

(** *** Routes *)

(** [router.get('/')].  [err] is the error the query may end with. *)
Definition home (w : World) (err : option jsstring) (query : Query.t) : Response :=
  let found := find_sort_id_desc w in
  match err with
  | Some e => Tossed e
  | None =>
      Render (lit "home")
        {| l_error := field (Query.error query);
           l_line1_5 := field (Query.line1_5 query);
           l_line2_7 := field (Query.line2_7 query);
           l_line3_5 := field (Query.line3_5 query);
           l_pangrams := found;
           l_layout := lit "layout" |}
  end.

Definition push_message (errors : list jsstring) (e : option jsstring) : list jsstring :=
  match e with
  | Some message => errors ++ [message]
  | None => errors
  end.

(** The text joined from [err.errors] in the save callback. *)
Definition error_text (err : ValidationError.t) : jsstring :=
  let errors := [] in
  let errors := push_message errors (ValidationError.line1_5 err) in
  let errors := push_message errors (ValidationError.line2_7 err) in
  let errors := push_message errors (ValidationError.line3_5 err) in
  join (lit " ") errors.

Definition error_url (errors : jsstring) (query : Query.t) : jsstring :=
  JS.ToString
    (JS.add (JS.add (JS.add (JS.add (JS.add (JS.add (JS.add
       (VStr (lit "/?error=")) (VStr errors))
       (VStr (lit "&line1_5="))) (field (Query.line1_5 query)))
       (VStr (lit "&line2_7="))) (field (Query.line2_7 query)))
       (VStr (lit "&line3_5="))) (field (Query.line3_5 query))).

(** The callback of [pangram.save] in [router.get('/create')]: what
    happens to a document once its validation is over, which may be well
    after it was made. *)
Definition finish (w : World) (net : Network) (pangram : Pangram) (query : Query.t)
  : World * Response :=
  let (w, err) := save w net pangram in
  match err with
  | Throw e => (w, Uncaught e)
  | Normal (Some err) => (w, Redirect (error_url (error_text err) query))
  | Normal None => (w, Redirect (lit "/"))
  end.

(** [router.get('/create')], served without another request in between. *)
Definition create (w : World) (net : Network) (query : Query.t) : World * Response :=
  let (pangram, w) :=
    new_Pangram w (Query.line1_5 query) (Query.line2_7 query) (Query.line3_5 query) in
  let (w, err) := save w net pangram in
  match err with
  | Throw e => (w, Uncaught e)
  | Normal (Some err) => (w, Redirect (error_url (error_text err) query))
  | Normal None => (w, Redirect (lit "/"))
  end.

(** *** Vocabulary of the specification *)

(** The document built from the query of a request to [/create]. *)
Definition submitted (w : World) (query : Query.t) : Pangram :=
  fst (new_Pangram w (Query.line1_5 query) (Query.line2_7 query) (Query.line3_5 query)).

Definition or_empty (f : option jsstring) : jsstring :=
  match f with
  | Some s => s
  | None => []
  end.

(** The three lines concatenated, an absent line counting as empty. *)
Definition combined (doc : Pangram) : jsstring :=
  or_empty (line1_5 doc) ++ or_empty (line2_7 doc) ++ or_empty (line3_5 doc).

(** The code units of [a] to [z]. *)
Definition alphabet : list N := map N.of_nat (seq 97 26).

Definition covers_alphabet (s : jsstring) : Prop :=
  forall c, In c alphabet -> In c s.

Definition is_pangram (s : jsstring) : bool :=
  forallb (fun c => existsb (N.eqb c) s) alphabet.

(** The syllable count read off a lookup result, as the validator reads
    it. *)
Definition syllable_count (r : Result) : completion JsValue :=
  f <- JSON.get (body r) (lit "syllables") ;; JSON.parseInt f.

Definition line_syllables (net : Network) (doc : Pangram) (p : Path) : completion JsValue :=
  syllable_count (net p (getValue doc p)).

Definition required_message (p : Path) : jsstring :=
  lit "Path `" ++ path_name p ++ lit "` is required.".

(** The one message a path contributes: that of the first of its rules
    to fail, in the order required, letter coverage (second line only),
    syllables. *)
Definition path_message (net : Network) (doc : Pangram) (p : Path) : option jsstring :=
  match getValue doc p with
  | VStr (_ :: _) =>
      if match p with
         | Line2 => negb (is_pangram (toLowerCase (combined doc)))
         | _ => false
         end
      then Some (lit "Not a pangram!")
      else match line_syllables net doc p with
           | Normal c =>
               if JS.number_eq c (VNum (required_syllables p)) then None
               else Some (syllables_message p)
           | Throw _ => None
           end
  | _ => Some (required_message p)
  end.

Definition present (ms : list (option jsstring)) : list jsstring :=
  flat_map (fun m => match m with Some x => [x] | None => [] end) ms.

Definition listed (r : Response) : list Pangram :=
  match r with
  | Render _ locals => l_pangrams locals
  | _ => []
  end.

(** The reading of the error text in which every failing rule has its
    message shown: the messages of the letter rule and of the three
    syllable rules that return [false] on the document. *)
Definition rule_fails (c : completion bool) : bool :=
  match c with
  | Normal false => true
  | _ => false
  end.

Definition failing_rule_messages (net : Network) (doc : Pangram) : list jsstring :=
  flat_map
    (fun v : Validator * Path =>
       if rule_fails (v_fn (fst v) doc (getValue doc (snd v)))
       then [v_message (fst v)] else [])
    [(syllables_validator net Line1, Line1); (pangram_rule, Line2);
     (syllables_validator net Line2, Line2); (syllables_validator net Line3, Line3)].

Definition surfaces_every_failure (w : World) (net : Network) (query : Query.t) : Prop :=
  forall err,
    validate net (submitted w query) = Normal (Some err) ->
    forall m, In m (failing_rule_messages net (submitted w query)) ->
              JS.indexOf (error_text err) m <> -1.

(** The value the service sent as the count of a line. *)
Definition returned (net : Network) (doc : Pangram) (p : Path) : completion (option Json) :=
  JSON.get (body (net p (getValue doc p))) (lit "syllables").

(** A sent value that is the count [n] itself, as a Number or as its
    numeral. *)
Definition is_count (v : option Json) (n : Z) : Prop :=
  v = Some (JNumber n 0) \/ v = Some (JString (integer_text n)).

(** The reading of the syllable rules in which a submission passes only
    when the service sent exactly 5, 7 and 5. *)
Definition passes_only_exact_counts (w : World) (net : Network) (query : Query.t) : Prop :=
  validate net (submitted w query) = Normal None ->
  forall p, exists v,
    returned net (submitted w query) p = Normal v /\ is_count v (required_syllables p).

(** The text a query value turns into when it is appended to a string. *)
Definition appended (f : option jsstring) : jsstring :=
  match f with
  | Some s => s
  | None => lit "undefined"
  end.

(** Requests to [/create] that overlap: each is begun, which makes its
    document, and finished later, when its lookups have answered; other
    requests may begin or finish in between.  The list holds the requests
    begun and not yet finished. *)
Inductive overlapping : World -> list (Pangram * Network * Query.t) -> Prop :=
| over_start : overlapping {| pangrams := []; next_id := 0 |} []
| over_begin w flight net query :
    overlapping w flight ->
    overlapping
      (snd (new_Pangram w (Query.line1_5 query) (Query.line2_7 query) (Query.line3_5 query)))
      (flight ++ [(submitted w query, net, query)])
| over_finish w before doc net query after :
    overlapping w (before ++ (doc, net, query) :: after) ->
    overlapping (fst (finish w net doc query)) (before ++ after).

(** The collection after two requests that cross: the haiku is begun
    first and finished last. *)
Definition crossed : World :=
  {| pangrams := [submitted {| pangrams := []; next_id := 1 |} jugs; submitted start haiku];
     next_id := 2 |}.

(** The reading of the listing in which it is the collection in reverse
    order of insertion. *)
Definition lists_latest_insert_first (w : World) : Prop :=
  forall query, listed (home w None query) = rev (pangrams w).

(** [err.errors[p]] *)
Definition error_at (err : ValidationError.t) (p : Path) : option jsstring :=
  match p with
  | Line1 => ValidationError.line1_5 err
  | Line2 => ValidationError.line2_7 err
  | Line3 => ValidationError.line3_5 err
  end.

(** The world after a run of requests to [/create], each with the service
    as it answered during that request. *)
Fixpoint serve (w : World) (requests : list (Network * Query.t)) : World :=
  match requests with
  | [] => w
  | (net, query) :: rest => serve (fst (create w net query)) rest
  end.

Definition filled (f : option jsstring) : Prop :=
  exists c s, f = Some (c :: s).

(** What holds of the store at all times: documents sit in the order of
    their [_id], which were all handed out already, and have their three
    lines. *)
Record consistent (w : World) : Prop := {
  ids_ascending : StronglySorted (fun a b => (_id a < _id b)%N) (pangrams w);
  ids_used : Forall (fun d => (_id d < next_id w)%N) (pangrams w);
  lines_filled :
    Forall (fun d => filled (line1_5 d) /\ filled (line2_7 d) /\ filled (line3_5 d))
           (pangrams w)
}.

(** The worlds the server can be in: started on an empty collection and
    having served requests to [/create] one at a time. *)
Inductive reachable : World -> Prop :=
| reach_start : reachable {| pangrams := []; next_id := 0 |}
| reach_create w net query :
    reachable w -> reachable (fst (create w net query)).

(** ** Strings *)

Lemma indexOf_from_single (c : N) (s : jsstring) :
  forall pos, 0 <= pos -> (JS.indexOf_from s [c] pos = -1 <-> ~ In c s).
Proof.
  induction s as [|a s IH]; intros pos Hpos; simpl.
  - tauto.
  - destruct (N.eqb_spec c a) as [->|Hne]; simpl.
    + split; [lia | intros H; exfalso; apply H; now left].
    + rewrite IH by lia. split.
      * intros H [E|E]; [congruence | tauto].
      * intros H E. apply H. now right.
Qed.

Lemma indexOf_single (c : N) (s : jsstring) :
  JS.indexOf s [c] = -1 <-> ~ In c s.
Proof. apply indexOf_from_single. lia. Qed.

Lemma existsb_eqb_In (c : N) (s : jsstring) :
  existsb (N.eqb c) s = true <-> In c s.
Proof.
  rewrite existsb_exists. split.
  - intros [x [Hin E]]. apply N.eqb_eq in E. now subst.
  - intros H. exists c. split; [assumption | apply N.eqb_refl].
Qed.

Lemma is_pangram_iff (s : jsstring) :
  is_pangram s = true <-> covers_alphabet s.
Proof.
  unfold is_pangram, covers_alphabet. rewrite forallb_forall.
  split; intros H c Hc; apply existsb_eqb_In; auto.
Qed.

(** ** The letter loop *)

Lemma letter_loop_true (s : jsstring) (n : nat) :
  forall i,
    letter_loop s i n = true <->
    (forall k, (i <= k < i + n)%nat -> JS.indexOf s (JS.charAt letters k) <> -1).
Proof.
  induction n as [|n IH]; intros i; simpl.
  - split; [intros _ k Hk; lia | reflexivity].
  - destruct (Z.eqb_spec (JS.indexOf s (JS.charAt letters i)) (-1)) as [E|E].
    + split; [discriminate |].
      intros H. exfalso. apply (H i); [lia | exact E].
    + rewrite IH. split; intros H k Hk.
      * destruct (Nat.eq_dec k i) as [->|Hki]; [exact E | apply H; lia].
      * apply H. lia.
Qed.

Lemma jsstring_eqb_eq (a b : jsstring) :
  jsstring_eqb a b = true <-> a = b.
Proof.
  revert b. induction a as [|x a IH]; destruct b as [|y b]; simpl;
    try (split; [discriminate | congruence]); try tauto.
  rewrite andb_true_iff, N.eqb_eq, IH.
  split; [intros [-> ->]; reflexivity | intros E; inversion E; auto].
Qed.

(** [letters] is an arrangement of the alphabet. *)
Lemma letters_charAt (k : nat) :
  (k < 26)%nat -> exists c, In c alphabet /\ JS.charAt letters k = [c].
Proof.
  intros Hk.
  assert (Hr : forallb (fun k => existsb (fun c => jsstring_eqb (JS.charAt letters k) [c])
                                   alphabet) (seq 0 26) = true) by (vm_compute; reflexivity).
  rewrite forallb_forall in Hr.
  specialize (Hr k ltac:(apply in_seq; lia)).
  apply existsb_exists in Hr. destruct Hr as [c [Hc E]].
  exists c. split; [assumption | now apply jsstring_eqb_eq].
Qed.

Lemma alphabet_in_letters (c : N) :
  In c alphabet -> exists k, (k < 26)%nat /\ JS.charAt letters k = [c].
Proof.
  intros Hc.
  assert (Hl : forallb (fun c => existsb (fun k => jsstring_eqb (JS.charAt letters k) [c])
                                   (seq 0 26)) alphabet = true) by (vm_compute; reflexivity).
  rewrite forallb_forall in Hl.
  specialize (Hl c Hc). apply existsb_exists in Hl. destruct Hl as [k [Hk E]].
  exists k. split; [apply in_seq in Hk; lia | now apply jsstring_eqb_eq].
Qed.

Lemma letter_loop_is_pangram (s : jsstring) :
  letter_loop s 0 26 = is_pangram s.
Proof.
  apply eq_true_iff_eq. rewrite letter_loop_true, is_pangram_iff.
  unfold covers_alphabet. split.
  - intros H c Hc. apply alphabet_in_letters in Hc. destruct Hc as [k [Hk E]].
    specialize (H k ltac:(lia)). rewrite E in H.
    destruct (in_dec N.eq_dec c s) as [Hin|Hin]; [assumption |].
    apply indexOf_single in Hin. contradiction.
  - intros H k Hk.
    destruct (letters_charAt k ltac:(lia)) as [c [Hc E]].
    rewrite E, indexOf_single. intros Hn. apply Hn. auto.
Qed.

(** ** Evaluation of the validators *)

Lemma or_field_empty (f : option jsstring) :
  JS.or (field f) (VStr []) = VStr (or_empty f).
Proof. destruct f as [[|c s]|]; reflexivity. Qed.

Lemma pangram_validator_eval (this : Pangram) (value : JsValue) :
  pangram_validator this value = Normal (is_pangram (toLowerCase (combined this))).
Proof.
  unfold pangram_validator, combined. rewrite !or_field_empty.
  cbn [JS.add JS.is_numeric andb JS.ToString call_toLowerCase bind].
  now rewrite letter_loop_is_pangram, app_assoc.
Qed.

Lemma validate_syllables_eval (get : JsValue -> Result) (value : JsValue) (n : Z) :
  validate_syllables get value n =
  (c <- syllable_count (get value) ;; Normal (JS.number_eq c (VNum n))).
Proof.
  unfold validate_syllables, syllable_count.
  destruct (JSON.get (body (get value)) (lit "syllables")) as [f|e]; cbn [bind];
    [| reflexivity].
  destruct (JSON.parseInt f); reflexivity.
Qed.

Lemma number_eq_true (c : JsValue) (n : Z) :
  JS.number_eq c (VNum n) = true -> c = VNum n.
Proof.
  destruct c; simpl; try discriminate.
  intros E. apply Z.eqb_eq in E. now subst.
Qed.

(** ** Validation of a path *)

Ltac eval_path :=
  unfold validatePath, path_message, line_syllables;
  cbn [PangramSchema doValidate required_validator syllables_validator pangram_rule
       v_fn v_message v_async v_overdue];
  rewrite ?pangram_validator_eval, ?validate_syllables_eval.

Ltac split_path :=
  destruct (getValue _ _) as [| | | | |[|? ?]];
  try destruct (is_pangram _) eqn:?;
  destruct run_after_failure;
  try destruct (syllable_count _) as [?|?];
  cbn [bind]; try destruct (JS.number_eq _ _) eqn:?;
  cbn [report waited late_crash bind negb orb andb].

Lemma validatePath_message (net : Network) (doc : Pangram) (p : Path) (r : option jsstring) :
  report (validatePath net doc p) = Normal r -> r = path_message net doc p.
Proof.
  destruct p; eval_path; split_path;
    intros H; try discriminate H; now inversion H.
Qed.

(** When the lookup of a path does not break, the path reports and no late
    callback of its own raises an exception. *)
Lemma validatePath_completes (net : Network) (doc : Pangram) (p : Path) (c : JsValue) :
  line_syllables net doc p = Normal c ->
  report (validatePath net doc p) = Normal (path_message net doc p)
  /\ late_crash (validatePath net doc p) = false.
Proof.
  destruct p; eval_path;
    (destruct (getValue _ _) as [| | | | |[|? ?]]);
    try destruct (is_pangram _);
    destruct run_after_failure;
    intros Hc; rewrite ?Hc; cbn [bind];
    try destruct (JS.number_eq _ _);
    cbn [report waited late_crash bind negb orb andb]; split; reflexivity.
Qed.

Lemma validatePath_valid (net : Network) (doc : Pangram) (p : Path) :
  report (validatePath net doc p) = Normal None ->
  (exists c s, getValue doc p = VStr (c :: s))
  /\ line_syllables net doc p = Normal (VNum (required_syllables p))
  /\ (p = Line2 -> is_pangram (toLowerCase (combined doc)) = true).
Proof.
  destruct p; eval_path;
    (destruct (getValue _ _) as [| | | | |[|c s]] eqn:Ev);
    try destruct (is_pangram _) eqn:Ep;
    destruct run_after_failure;
    try destruct (syllable_count _) as [k|e];
    cbn [bind]; try destruct (JS.number_eq _ _) eqn:En;
    cbn [report waited late_crash bind negb orb andb];
    intros H; try discriminate H;
    apply number_eq_true in En; subst;
    (split; [eauto | split; [reflexivity | congruence]]).
Qed.

(** ** Validation of a document *)

Lemma validate_reports (net : Network) (doc : Pangram) (r : option ValidationError.t) :
  validate net doc = Normal r ->
  exists e1 e2 e3,
    report (validatePath net doc Line1) = Normal e1
    /\ report (validatePath net doc Line2) = Normal e2
    /\ report (validatePath net doc Line3) = Normal e3
    /\ r = match e1, e2, e3 with
           | None, None, None => None
           | _, _, _ =>
               Some {| ValidationError.line1_5 := e1; ValidationError.line2_7 := e2;
                       ValidationError.line3_5 := e3 |}
           end.
Proof.
  unfold validate.
  destruct (report (validatePath net doc Line1)) as [e1|]; cbn [bind]; [| discriminate].
  destruct (report (validatePath net doc Line2)) as [e2|]; cbn [bind]; [| discriminate].
  destruct (report (validatePath net doc Line3)) as [e3|]; cbn [bind]; [| discriminate].
  destruct (_ && _); [discriminate |].
  intros H. exists e1, e2, e3. repeat split.
  destruct e1, e2, e3; now inversion H.
Qed.

Lemma validate_valid (net : Network) (doc : Pangram) :
  validate net doc = Normal None ->
  forall p, report (validatePath net doc p) = Normal None.
Proof.
  intros H. apply validate_reports in H.
  destruct H as [e1 [e2 [e3 [H1 [H2 [H3 E]]]]]].
  destruct e1, e2, e3; try discriminate E.
  intros [| |]; assumption.
Qed.

Lemma validate_invalid (net : Network) (doc : Pangram) (err : ValidationError.t) :
  validate net doc = Normal (Some err) ->
  report (validatePath net doc Line1) = Normal (ValidationError.line1_5 err)
  /\ report (validatePath net doc Line2) = Normal (ValidationError.line2_7 err)
  /\ report (validatePath net doc Line3) = Normal (ValidationError.line3_5 err)
  /\ present [ValidationError.line1_5 err; ValidationError.line2_7 err;
              ValidationError.line3_5 err] <> [].
Proof.
  intros H. apply validate_reports in H.
  destruct H as [e1 [e2 [e3 [H1 [H2 [H3 E]]]]]].
  destruct e1, e2, e3; inversion E; subst; cbn; repeat split; auto; discriminate.
Qed.

Lemma validate_completes (net : Network) (doc : Pangram) :
  (forall p, exists c, line_syllables net doc p = Normal c) ->
  exists r, validate net doc = Normal r.
Proof.
  intros H. unfold validate.
  destruct (H Line1) as [c1 H1], (H Line2) as [c2 H2], (H Line3) as [c3 H3].
  destruct (validatePath_completes _ _ _ _ H1) as [R1 L1].
  destruct (validatePath_completes _ _ _ _ H2) as [R2 L2].
  destruct (validatePath_completes _ _ _ _ H3) as [R3 L3].
  rewrite R1, R2, R3, L1, L2, L3. cbn [bind orb andb].
  destruct (path_message net doc Line1), (path_message net doc Line2),
    (path_message net doc Line3); eauto.
Qed.

Lemma validate_fails (net : Network) (doc : Pangram) :
  validate net doc <> Normal None ->
  (forall p, exists c, line_syllables net doc p = Normal c) ->
  exists err, validate net doc = Normal (Some err).
Proof.
  intros Hn Hc. destruct (validate_completes _ _ Hc) as [[err|] Hr].
  - now exists err.
  - contradiction.
Qed.

(** ** The store *)

Lemma create_world (w : World) (net : Network) (query : Query.t) :
  fst (create w net query) =
  {| pangrams :=
       match validate net (submitted w query) with
       | Normal None => pangrams w ++ [submitted w query]
       | _ => pangrams w
       end;
     next_id := N.succ (next_id w) |}.
Proof.
  unfold create, submitted, new_Pangram, save. cbn [fst].
  destruct (validate net _) as [[err|]|e]; reflexivity.
Qed.

Lemma create_response (w : World) (net : Network) (query : Query.t) :
  snd (create w net query) =
  match validate net (submitted w query) with
  | Throw e => Uncaught e
  | Normal (Some err) => Redirect (error_url (error_text err) query)
  | Normal None => Redirect (lit "/")
  end.
Proof.
  unfold create, submitted, new_Pangram, save. cbn [fst].
  destruct (validate net _) as [[err|]|e]; reflexivity.
Qed.

Lemma field_filled (f : option jsstring) (c : N) (s : jsstring) :
  field f = VStr (c :: s) -> filled f.
Proof.
  destruct f as [x|]; simpl; [| discriminate].
  intros E. inversion E. subst. now exists c, s.
Qed.

Lemma create_consistent (w : World) (net : Network) (query : Query.t) :
  consistent w -> consistent (fst (create w net query)).
Proof.
  intros [Hs Hu Hf]. rewrite create_world.
  assert (Hu' : Forall (fun d => (_id d < N.succ (next_id w))%N) (pangrams w)).
  { eapply Forall_impl; [| exact Hu]. cbn. intros d Hd. lia. }
  destruct (validate net (submitted w query)) as [[err|]|e] eqn:Ev;
    try (constructor; cbn; assumption).
  constructor; cbn.
  - clear Hu' Hf. induction Hs as [|a l Hs IH Ha].
    + repeat constructor.
    + inversion Hu; subst. cbn. constructor; [auto |].
      apply Forall_app. split; [assumption |].
      constructor; [| constructor]. assumption.
  - apply Forall_app. split; [assumption |].
    constructor; [cbn; lia | constructor].
  - apply Forall_app. split; [assumption |].
    constructor; [| constructor].
    pose proof (validate_valid _ _ Ev) as Hv.
    destruct (validatePath_valid _ _ _ (Hv Line1)) as [[c1 [s1 E1]] _].
    destruct (validatePath_valid _ _ _ (Hv Line2)) as [[c2 [s2 E2]] _].
    destruct (validatePath_valid _ _ _ (Hv Line3)) as [[c3 [s3 E3]] _].
    cbn in E1, E2, E3. cbn.
    repeat split; eapply field_filled; eassumption.
Qed.

Lemma reachable_consistent (w : World) :
  reachable w -> consistent w.
Proof.
  induction 1 as [|w net query _ IH].
  - constructor; cbn; constructor.
  - now apply create_consistent.
Qed.

(** ** Listing *)

Lemma insert_desc_least (d : Pangram) (l : list Pangram) :
  Forall (fun x => (_id d < _id x)%N) l -> insert_desc d l = l ++ [d].
Proof.
  induction 1 as [|x l Hx _ IH]; cbn; [reflexivity |].
  destruct (N.leb_spec (_id x) (_id d)); [lia | now rewrite IH].
Qed.

Lemma sort_desc_ascending (l : list Pangram) :
  StronglySorted (fun a b => (_id a < _id b)%N) l ->
  fold_right insert_desc [] l = rev l.
Proof.
  induction 1 as [|a l _ IH Ha]; cbn; [reflexivity |].
  rewrite IH. apply insert_desc_least.
  apply Forall_forall. intros x Hx. apply in_rev in Hx.
  rewrite Forall_forall in Ha. auto.
Qed.

Lemma insert_desc_perm (d : Pangram) (l : list Pangram) :
  Permutation (d :: l) (insert_desc d l).
Proof.
  induction l as [|x l IH]; cbn; [reflexivity |].
  destruct (_id x <=? _id d)%N; [reflexivity |].
  rewrite perm_swap. now constructor.
Qed.

Lemma insert_desc_sorted (d : Pangram) (l : list Pangram) :
  Sorted (fun a b => (_id b <= _id a)%N) l ->
  Sorted (fun a b => (_id b <= _id a)%N) (insert_desc d l).
Proof.
  induction 1 as [|x l Hl IH Hx]; cbn; [repeat constructor |].
  destruct (N.leb_spec (_id x) (_id d)).
  - repeat constructor; assumption.
  - constructor; [assumption |].
    destruct l as [|y l]; cbn in *.
    + constructor. lia.
    + destruct (_id y <=? _id d)%N; constructor; [lia |].
      now inversion Hx.
Qed.

(** The listing is a sort: the stored documents, by descending [_id]. *)
Lemma find_sort_id_desc_sorts (w : World) :
  Permutation (pangrams w) (find_sort_id_desc w)
  /\ Sorted (fun a b => (_id b <= _id a)%N) (find_sort_id_desc w).
Proof.
  unfold find_sort_id_desc. induction (pangrams w) as [|d l [IHp IHs]]; cbn.
  - split; constructor.
  - split; [| now apply insert_desc_sorted].
    rewrite <- insert_desc_perm. now constructor.
Qed.

(** ** The redirect of a rejected submission *)

Lemma error_url_text (errors : jsstring) (query : Query.t) :
  error_url errors query =
  lit "/?error=" ++ errors
    ++ lit "&line1_5=" ++ JS.ToString (field (Query.line1_5 query))
    ++ lit "&line2_7=" ++ JS.ToString (field (Query.line2_7 query))
    ++ lit "&line3_5=" ++ JS.ToString (field (Query.line3_5 query)).
Proof.
  unfold error_url.
  destruct (Query.line1_5 query), (Query.line2_7 query), (Query.line3_5 query);
    cbn [field JS.add JS.is_numeric andb JS.ToString];
    now rewrite <- !app_assoc.
Qed.

Lemma error_text_present (err : ValidationError.t) :
  error_text err =
  join (lit " ")
    (present [ValidationError.line1_5 err; ValidationError.line2_7 err;
              ValidationError.line3_5 err]).
Proof.
  unfold error_text, present, push_message.
  destruct (ValidationError.line1_5 err), (ValidationError.line2_7 err),
    (ValidationError.line3_5 err); reflexivity.
Qed.

Lemma path_message_nonempty (net : Network) (doc : Pangram) (p : Path) (m : jsstring) :
  path_message net doc p = Some m -> m <> [].
Proof.
  unfold path_message.
  destruct (getValue doc p) as [| | | | |[|c s]];
    try (intros H; inversion H; destruct p; discriminate).
  destruct (match p with Line2 => _ | _ => false end);
    [intros H; inversion H; discriminate |].
  destruct (line_syllables net doc p) as [k|e]; [| discriminate].
  destruct (JS.number_eq _ _); [discriminate |].
  intros H; inversion H; destruct p; discriminate.
Qed.

Lemma join_nonempty (sep : jsstring) (parts : list jsstring) :
  parts <> [] -> Forall (fun m => m <> []) parts -> join sep parts <> [].
Proof.
  destruct parts as [|m rest]; [congruence |].
  intros _ H. inversion H as [|? ? Hm _]; subst.
  destruct m as [|c m]; [congruence |].
  destruct rest; discriminate.
Qed.

(** ** Properties of the specification *)

(** C1.  A submission whose three lines, concatenated and lowercased, lack
    one of the letters a to z fails the letter rule, does not pass
    validation (a validation error always marks [line2_7]) and leaves the
    collection as it was; when the three lookups come back with a body,
    validation ends with a validation error. *)
Theorem non_pangram_rejected (w : World) (net : Network) (query : Query.t) :
  (exists c, In c alphabet /\ ~ In c (toLowerCase (combined (submitted w query)))) ->
  pangram_validator (submitted w query) (getValue (submitted w query) Line2) = Normal false
  /\ validate net (submitted w query) <> Normal None
  /\ (forall err, validate net (submitted w query) = Normal (Some err) ->
                  ValidationError.line2_7 err <> None)
  /\ snd (create w net query) <> Redirect (lit "/")
  /\ pangrams (fst (create w net query)) = pangrams w
  /\ ((forall p, exists k, line_syllables net (submitted w query) p = Normal k) ->
      exists err, validate net (submitted w query) = Normal (Some err)).
Proof.
  intros [c [Hc Hn]].
  assert (Hp : is_pangram (toLowerCase (combined (submitted w query))) = false).
  { destruct (is_pangram _) eqn:E; [| reflexivity].
    apply is_pangram_iff in E. elim Hn. auto. }
  assert (Hv : validate net (submitted w query) <> Normal None).
  { intros Hv. pose proof (validate_valid _ _ Hv Line2) as H2.
    apply validatePath_valid in H2. destruct H2 as [_ [_ H2]].
    rewrite (H2 eq_refl) in Hp. discriminate. }
  repeat split.
  - now rewrite pangram_validator_eval, Hp.
  - exact Hv.
  - intros err He. apply validate_invalid in He. destruct He as [_ [He _]].
    apply validatePath_message in He. rewrite He.
    unfold path_message. rewrite Hp.
    destruct (getValue (submitted w query) Line2) as [| | | | |[|c' s']]; discriminate.
  - rewrite create_response.
    destruct (validate net (submitted w query)) as [[err|]|e];
      [rewrite error_url_text; discriminate | congruence | discriminate].
  - rewrite create_world.
    destruct (validate net (submitted w query)) as [[err|]|e]; cbn; congruence.
  - now apply validate_fails.
Qed.

(** C2.  Unless the service reports 5 syllables for line 1, 7 for line 2
    and 5 for line 3, the submission does not pass validation: the answer
    is not the plain redirect and nothing is stored; when the three
    lookups come back with a body, validation ends with a validation
    error. *)
Theorem wrong_syllables_rejected (w : World) (net : Network) (query : Query.t) :
  ~ (line_syllables net (submitted w query) Line1 = Normal (VNum 5)
     /\ line_syllables net (submitted w query) Line2 = Normal (VNum 7)
     /\ line_syllables net (submitted w query) Line3 = Normal (VNum 5)) ->
  validate net (submitted w query) <> Normal None
  /\ snd (create w net query) <> Redirect (lit "/")
  /\ pangrams (fst (create w net query)) = pangrams w
  /\ ((forall p, exists k, line_syllables net (submitted w query) p = Normal k) ->
      exists err, validate net (submitted w query) = Normal (Some err)).
Proof.
  intros Hn.
  assert (Hv : validate net (submitted w query) <> Normal None).
  { intros Hv. apply Hn.
    pose proof (validate_valid _ _ Hv) as Hp.
    repeat split; [apply (validatePath_valid _ _ Line1) | apply (validatePath_valid _ _ Line2)
                   | apply (validatePath_valid _ _ Line3)]; apply Hp. }
  repeat split.
  - exact Hv.
  - rewrite create_response.
    destruct (validate net (submitted w query)) as [[err|]|e];
      [rewrite error_url_text; discriminate | congruence | discriminate].
  - rewrite create_world.
    destruct (validate net (submitted w query)) as [[err|]|e]; cbn; congruence.
  - now apply validate_fails.
Qed.


(** ** Requests that overlap *)

Lemma create_finish (w : World) (net : Network) (query : Query.t) :
  create w net query =
  finish (snd (new_Pangram w (Query.line1_5 query) (Query.line2_7 query)
                 (Query.line3_5 query)))
         net (submitted w query) query.
Proof. reflexivity. Qed.

Lemma finish_world (w : World) (net : Network) (doc : Pangram) (query : Query.t) :
  fst (finish w net doc query) =
  {| pangrams :=
       match validate net doc with
       | Normal None => pangrams w ++ [doc]
       | _ => pangrams w
       end;
     next_id := next_id w |}.
Proof.
  unfold finish, save. destruct w as [stored next].
  destruct (validate net doc) as [[err|]|e]; reflexivity.
Qed.

Lemma reachable_overlapping (w : World) :
  reachable w -> overlapping w [].
Proof.
  induction 1 as [|w net query _ IH]; [constructor |].
  rewrite create_finish.
  apply (over_finish _ [] (submitted w query) net query []).
  apply (over_begin w [] net query IH).
Qed.

(** Every [_id] handed out, stored or still on its way, is handed out
    once. *)
Lemma overlapping_ids (w : World) (flight : list (Pangram * Network * Query.t)) :
  overlapping w flight ->
  NoDup (map _id (pangrams w) ++ map (fun r => _id (fst (fst r))) flight)
  /\ Forall (fun i => (i < next_id w)%N)
            (map _id (pangrams w) ++ map (fun r => _id (fst (fst r))) flight).
Proof.
  induction 1 as [|w flight net query _ [IHn IHf]
                  |w before doc net query after _ [IHn IHf]].
  - split; constructor.
  - cbn [new_Pangram snd pangrams next_id submitted fst].
    rewrite map_app, app_assoc. cbn [map fst _id].
    split.
    + apply (Permutation_NoDup (Permutation_cons_append _ _)).
      constructor; [| assumption].
      intros Hin. rewrite Forall_forall in IHf. apply IHf in Hin. lia.
    + apply Forall_app. split.
      * eapply Forall_impl; [| exact IHf]. cbn. intros i Hi. lia.
      * constructor; [lia | constructor].
  - rewrite finish_world. cbn [pangrams next_id].
    rewrite map_app in IHn, IHf. cbn [map fst] in IHn, IHf.
    rewrite map_app.
    destruct (validate net doc) as [[err|]|e].
    + split.
      * rewrite app_assoc in IHn |- *. now apply NoDup_remove_1 in IHn.
      * rewrite app_assoc in IHf |- *. apply Forall_app in IHf.
        destruct IHf as [H1 H2]. inversion H2; subst.
        apply Forall_app. now split.
    + assert (Hp : Permutation
                     (map _id (pangrams w)
                        ++ map (fun r => _id (fst (fst r))) before
                        ++ _id doc :: map (fun r => _id (fst (fst r))) after)
                     (map _id (pangrams w ++ [doc])
                        ++ map (fun r => _id (fst (fst r))) before
                        ++ map (fun r => _id (fst (fst r))) after)).
      { rewrite map_app. cbn [map]. rewrite <- app_assoc. cbn [app].
        apply Permutation_app_head. symmetry. apply Permutation_middle. }
      split.
      * exact (Permutation_NoDup Hp IHn).
      * exact (Permutation_Forall Hp IHf).
    + split.
      * rewrite app_assoc in IHn |- *. now apply NoDup_remove_1 in IHn.
      * rewrite app_assoc in IHf |- *. apply Forall_app in IHf.
        destruct IHf as [H1 H2]. inversion H2; subst.
        apply Forall_app. now split.
Qed.

Lemma sorted_distinct_strict (l : list Pangram) :
  Sorted (fun a b => (_id b <= _id a)%N) l ->
  NoDup (map _id l) ->
  StronglySorted (fun a b => (_id b < _id a)%N) l.
Proof.
  intros Hs. apply Sorted_StronglySorted in Hs; [| intros x y z; lia].
  induction Hs as [|a l _ IH Ha]; intros Hn; constructor.
  - apply IH. now inversion Hn.
  - inversion Hn as [|? ? Hnotin _]; subst.
    rewrite Forall_forall in *. intros b Hb.
    specialize (Ha b Hb).
    assert (_id b <> _id a).
    { intros E. apply Hnotin. rewrite <- E. now apply in_map. }
    lia.
Qed.

(** C3, amended.  A submission that passes validation stores exactly one
    new record.  The home page lists every stored record once, in
    descending order of [_id], that is most recently made first, also when
    requests overlap.  When requests are served one at a time this is the
    reverse of the order of insertion, and the new record comes first,
    before what was listed until then. *)
Theorem listed_by_descending_id :
  (forall w net doc query,
      validate net doc = Normal None ->
      pangrams (fst (finish w net doc query)) = pangrams w ++ [doc])
  /\ (forall w flight query,
         overlapping w flight ->
         Permutation (pangrams w) (listed (home w None query))
         /\ StronglySorted (fun a b => (_id b < _id a)%N) (listed (home w None query)))
  /\ (forall w net query q,
         reachable w ->
         validate net (submitted w query) = Normal None ->
         listed (home (fst (create w net query)) None q)
         = submitted w query :: listed (home w None q)
         /\ listed (home (fst (create w net query)) None q)
            = rev (pangrams (fst (create w net query)))).
Proof.
  split; [| split].
  - intros w net doc query Hv. now rewrite finish_world, Hv.
  - intros w flight query Ho.
    destruct (find_sort_id_desc_sorts w) as [Hp Hs].
    split; [exact Hp |].
    apply sorted_distinct_strict; [exact Hs |].
    apply overlapping_ids in Ho. destruct Ho as [Hn _].
    apply NoDup_app_remove_r in Hn.
    exact (Permutation_NoDup (Permutation_map _id Hp) Hn).
  - intros w net query q Hr Hv.
    assert (Hl : forall w', reachable w' -> find_sort_id_desc w' = rev (pangrams w')).
    { intros w' Hw'. apply sort_desc_ascending, reachable_consistent, Hw'. }
    cbn [home listed l_pangrams].
    rewrite (Hl _ (reach_create _ net query Hr)), (Hl w Hr).
    split; [| reflexivity].
    rewrite create_world. cbn [pangrams]. now rewrite Hv, rev_unit.
Qed.

(** C4.  A submission that fails validation leaves the collection as it
    was, and the answer is a redirect whose error text is not empty. *)
Theorem invalid_submission_not_stored
    (w : World) (net : Network) (query : Query.t) (err : ValidationError.t) :
  validate net (submitted w query) = Normal (Some err) ->
  pangrams (fst (create w net query)) = pangrams w
  /\ snd (create w net query) = Redirect (error_url (error_text err) query)
  /\ error_text err <> [].
Proof.
  intros Hv. rewrite create_world, create_response, Hv.
  repeat split.
  apply validate_invalid in Hv. destruct Hv as [H1 [H2 [H3 Hne]]].
  apply validatePath_message in H1, H2, H3.
  rewrite error_text_present. apply join_nonempty; [exact Hne |].
  destruct (ValidationError.line1_5 err) eqn:E1, (ValidationError.line2_7 err) eqn:E2,
    (ValidationError.line3_5 err) eqn:E3; cbn;
    repeat constructor; eauto using path_message_nonempty.
Qed.

(** C5, amended.  Each path contributes at most one message, that of the
    first of its rules to fail, and the error text of a rejected
    submission is these messages joined by single spaces in the order of
    the lines. *)
Theorem error_text_one_message_per_path
    (w : World) (net : Network) (query : Query.t) (err : ValidationError.t) :
  validate net (submitted w query) = Normal (Some err) ->
  error_text err =
    join (lit " ")
      (present (map (path_message net (submitted w query)) [Line1; Line2; Line3]))
  /\ snd (create w net query) = Redirect (error_url (error_text err) query).
Proof.
  intros Hv. rewrite create_response, Hv. split; [| reflexivity].
  apply validate_invalid in Hv. destruct Hv as [H1 [H2 [H3 _]]].
  apply validatePath_message in H1, H2, H3.
  rewrite error_text_present. cbn [map]. now rewrite H1, H2, H3.
Qed.

(** A lookup that comes back without a body makes the validator raise a
    TypeError, which nothing catches. *)
Lemma lookup_without_body_uncaught (w : World) (net : Network) (query : Query.t) :
  filled (Query.line1_5 query) ->
  body (net Line1 (field (Query.line1_5 query))) = None ->
  create w net query =
    ({| pangrams := pangrams w; next_id := N.succ (next_id w) |}, Uncaught TypeError).
Proof.
  intros [c [s Hf]] Hb.
  assert (Hv : validate net (submitted w query) = Throw TypeError).
  { unfold validate, validatePath at 1.
    cbn [PangramSchema doValidate submitted new_Pangram fst getValue line1_5].
    rewrite Hf. cbn [field required_validator v_fn bind syllables_validator].
    unfold validate_syllables. rewrite Hf in Hb. cbn [field] in Hb. rewrite Hb.
    reflexivity. }
  rewrite (surjective_pairing (create w net query)), create_world, create_response, Hv.
  reflexivity.
Qed.

(** A usable body without a usable count is a count that does not match. *)
Lemma unusable_count_fails (get : JsValue -> Result) (value : JsValue) (n : Z) :
  syllable_count (get value) = Normal VNaN ->
  validate_syllables get value n = Normal false.
Proof. intros H. now rewrite validate_syllables_eval, H. Qed.


(** C8.  Every stored record has its three lines, and its character count
    is the sum of their lengths. *)
Theorem character_count_sum (w : World) (doc : Pangram) :
  reachable w ->
  In doc (pangrams w) ->
  exists s1 s2 s3,
    line1_5 doc = Some s1 /\ line2_7 doc = Some s2 /\ line3_5 doc = Some s3
    /\ character_count doc =
         Normal (VNum (Z.of_nat (length s1 + length s2 + length s3))).
Proof.
  intros Hr Hin. apply reachable_consistent in Hr. destruct Hr as [_ _ Hf].
  rewrite Forall_forall in Hf.
  destruct (Hf doc Hin) as [[c1 [s1 E1]] [[c2 [s2 E2]] [c3 [s3 E3]]]].
  exists (c1 :: s1), (c2 :: s2), (c3 :: s3). repeat split; try assumption.
  unfold character_count. rewrite E1, E2, E3.
  cbn [field JS.get jsstring_eqb lit bind]. 
  cbv [JS.get]. cbn [bind JS.add JS.is_numeric andb JS.ToNumber_prim].
  now rewrite !Nat2Z.inj_add.
Qed.

(** C10.  The letter rule returns normally on every document: an absent
    line counts as the empty string, and the rule holds exactly when the
    lowercased concatenation has all 26 letters. *)
Theorem pangram_validator_total (this : Pangram) (value : JsValue) :
  exists b,
    pangram_validator this value = Normal b
    /\ (b = true <->
        covers_alphabet
          (toLowerCase (or_empty (line1_5 this) ++ or_empty (line2_7 this)
                          ++ or_empty (line3_5 this)))).
Proof.
  exists (is_pangram (toLowerCase (combined this))). split.
  - apply pangram_validator_eval.
  - apply is_pangram_iff.
Qed.

(** ** Further properties of the schema and the routes *)

(** X1.  [character_count] returns the length of the three lines put
    together when all three are there, and raises a TypeError as soon as
    one of them is absent. *)
Theorem character_count_defined (doc : Pangram) :
  character_count doc =
  match line1_5 doc, line2_7 doc, line3_5 doc with
  | Some a, Some b, Some c => Normal (VNum (Z.of_nat (length (a ++ b ++ c))))
  | _, _, _ => Throw TypeError
  end.
Proof.
  unfold character_count.
  destruct (line1_5 doc) as [a|], (line2_7 doc) as [b|], (line3_5 doc) as [c|];
    try reflexivity.
  cbv [field JS.get]. cbn [bind JS.add JS.is_numeric andb JS.ToNumber_prim].
  now rewrite !length_app, !Nat2Z.inj_add, Z.add_assoc.
Qed.


(** X3.  A body that is there but has no [syllables] property (an object
    without that key, a string, a number, a boolean, an array) counts as a
    mismatch, whatever number of syllables is required. *)
Theorem missing_count_fails (get : JsValue -> Result) (value : JsValue) (n : Z) :
  match body (get value) with
  | None | Some JNull => False
  | Some (JObject props) => JSON.lookup (lit "syllables") props = None
  | _ => True
  end ->
  validate_syllables get value n = Normal false.
Proof.
  unfold validate_syllables.
  destruct (body (get value)) as [[|b|m e|neg|s|elems|props]|]; cbn;
    intros H; try contradiction; try reflexivity.
  now rewrite H.
Qed.


(** X5.  The store keeps the invariant of the data model: in every world
    the server reaches, each stored record has three non-empty lines whose
    lowercased concatenation contains all 26 letters. *)
Theorem stored_records_are_pangrams (w : World) (doc : Pangram) :
  reachable w ->
  In doc (pangrams w) ->
  covers_alphabet (toLowerCase (combined doc))
  /\ filled (line1_5 doc) /\ filled (line2_7 doc) /\ filled (line3_5 doc).
Proof.
  intros Hr Hin. split.
  - induction Hr as [|w net query Hr IH]; [contradiction |].
    rewrite create_world in Hin. cbn [pangrams] in Hin.
    destruct (validate net (submitted w query)) as [[err|]|e] eqn:Ev; auto.
    apply in_app_or in Hin. destruct Hin as [Hin|[<-|[]]]; [auto |].
    apply is_pangram_iff.
    apply (validatePath_valid net _ Line2); [| reflexivity].
    now apply validate_valid.
  - apply reachable_consistent in Hr. destruct Hr as [_ _ Hf].
    rewrite Forall_forall in Hf. auto.
Qed.

(** X6.  Records are never removed or changed: after any run of requests
    to [/create] the earlier collection is still there, in its order, with
    at most one record added per request. *)
Theorem store_only_grows (requests : list (Network * Query.t)) :
  forall w,
  exists added,
    pangrams (serve w requests) = pangrams w ++ added
    /\ (length added <= length requests)%nat.
Proof.
  induction requests as [|[net query] rest IH]; intros w; cbn [serve].
  - exists []. now rewrite app_nil_r.
  - destruct (IH (fst (create w net query))) as [added [E Hl]].
    rewrite create_world in E. cbn [pangrams] in E. rewrite create_world.
    destruct (validate net (submitted w query)) as [[err|]|e].
    + exists added. cbn. split; [assumption | lia].
    + exists (submitted w query :: added). rewrite <- app_assoc in E.
      cbn in *. split; [assumption | lia].
    + exists added. cbn. split; [assumption | lia].
Qed.


Lemma validate_lines (net : Network) (d d' : Pangram) :
  line1_5 d = line1_5 d' -> line2_7 d = line2_7 d' -> line3_5 d = line3_5 d' ->
  validate net d = validate net d'.
Proof.
  destruct d as [i a b c], d' as [i' a' b' c']. cbn. intros -> -> ->.
  unfold validate, validatePath. cbn [PangramSchema doValidate getValue line1_5 line2_7 line3_5].
  cbn [required_validator syllables_validator pangram_rule v_fn v_message].
  now rewrite !pangram_validator_eval.
Qed.

(** X8.  The answer to a request to [/create] depends on the submitted
    lines and on the answers of the service only, never on what is
    stored. *)
Theorem create_response_ignores_store (w w' : World) (net : Network) (query : Query.t) :
  snd (create w net query) = snd (create w' net query).
Proof.
  rewrite !create_response.
  now rewrite (validate_lines net (submitted w query) (submitted w' query)).
Qed.

(** X9.  Nothing keeps a haiku from being stored twice: a valid
    submission sent again, with the service answering as before, adds a
    second record with the same lines and the next [_id]. *)
Theorem resubmission_stored_twice (w : World) (net : Network) (query : Query.t) :
  validate net (submitted w query) = Normal None ->
  pangrams (serve w [(net, query); (net, query)]) =
  pangrams w
    ++ [ {| _id := next_id w; line1_5 := Query.line1_5 query;
            line2_7 := Query.line2_7 query; line3_5 := Query.line3_5 query |};
         {| _id := N.succ (next_id w); line1_5 := Query.line1_5 query;
            line2_7 := Query.line2_7 query; line3_5 := Query.line3_5 query |} ].
Proof.
  intros Hv. cbn [serve].
  assert (Hv' : validate net (submitted (fst (create w net query)) query) = Normal None)
    by (rewrite <- Hv; now apply validate_lines).
  rewrite create_world, Hv'. cbn [pangrams].
  rewrite create_world, Hv. cbn. now rewrite <- app_assoc.
Qed.

(** ** The redirect as a carrier of the submitted lines *)

Lemma split_at_ampersand (a a' r r' : jsstring) :
  ~ In 38%N a -> ~ In 38%N a' ->
  a ++ 38%N :: r = a' ++ 38%N :: r' -> a = a' /\ r = r'.
Proof.
  revert a'. induction a as [|x a IH]; intros [|y a'] Ha Ha' E; cbn in *.
  - inversion E. auto.
  - inversion E. subst. exfalso. apply Ha'. now left.
  - inversion E. subst. exfalso. apply Ha. now left.
  - inversion E. subst.
    assert (H : a = a' /\ r = r').
    { apply IH; [| | assumption].
      - intros H. apply Ha. now right.
      - intros H. apply Ha'. now right. }
    destruct H as [-> ->]. auto.
Qed.

(** X10.  When the error text and the first two lines contain no [&],
    the redirect determines the error text and the three submitted lines:
    two rejected submissions with the same redirect are the same. *)
Theorem redirect_determines_lines
    (e e' a b c a' b' c' : jsstring) (query query' : Query.t) :
  Query.line1_5 query = Some a -> Query.line2_7 query = Some b ->
  Query.line3_5 query = Some c ->
  Query.line1_5 query' = Some a' -> Query.line2_7 query' = Some b' ->
  Query.line3_5 query' = Some c' ->
  ~ In 38%N e -> ~ In 38%N e' ->
  ~ In 38%N a -> ~ In 38%N a' ->
  ~ In 38%N b -> ~ In 38%N b' ->
  error_url e query = error_url e' query' ->
  e = e' /\ a = a' /\ b = b' /\ c = c'.
Proof.
  intros E1 E2 E3 E1' E2' E3' He He' Ha Ha' Hb Hb' H.
  rewrite !error_url_text, E1, E2, E3, E1', E2', E3' in H. cbn [field JS.ToString] in H.
  apply app_inv_head in H.
  change (lit "&line1_5=") with (38%N :: lit "line1_5=") in H.
  change (lit "&line2_7=") with (38%N :: lit "line2_7=") in H.
  change (lit "&line3_5=") with (38%N :: lit "line3_5=") in H.
  cbn [app] in H.
  apply split_at_ampersand in H; try assumption. destruct H as [-> H].
  apply app_inv_head in H.
  apply split_at_ampersand in H; try assumption. destruct H as [-> H].
  apply app_inv_head in H.
  apply split_at_ampersand in H; try assumption. destruct H as [-> H].
  apply app_inv_head in H. now subst.
Qed.

(** X11.  The lines are put into the redirect as they are: an [&line2_7=]
    inside the first line cannot be told from the boundary between the
    first two lines, and an absent line reads as the text [undefined]. *)
Theorem redirect_is_ambiguous (e a b c : jsstring) (d err : option jsstring) :
  error_url e {| Query.error := err; Query.line1_5 := Some (a ++ lit "&line2_7=" ++ b);
                 Query.line2_7 := Some c; Query.line3_5 := d |}
  = error_url e {| Query.error := err; Query.line1_5 := Some a;
                   Query.line2_7 := Some (b ++ lit "&line2_7=" ++ c); Query.line3_5 := d |}
  /\ error_url e {| Query.error := err; Query.line1_5 := Some a;
                    Query.line2_7 := Some b; Query.line3_5 := None |}
     = error_url e {| Query.error := err; Query.line1_5 := Some a;
                      Query.line2_7 := Some b; Query.line3_5 := Some (lit "undefined") |}.
Proof.
  rewrite !error_url_text. cbn [Query.line1_5 Query.line2_7 Query.line3_5 field JS.ToString].
  split; [| reflexivity].
  now rewrite <- !app_assoc.
Qed.

Lemma path_message_no_ampersand (net : Network) (doc : Pangram) (p : Path) (m : jsstring) :
  path_message net doc p = Some m -> ~ In 38%N m.
Proof.
  assert (Hr : forall q, ~ In 38%N (required_message q))
    by (intros []; vm_compute; intuition discriminate).
  assert (Hs : forall q, ~ In 38%N (syllables_message q))
    by (intros []; vm_compute; intuition discriminate).
  unfold path_message.
  destruct (getValue doc p) as [| | | | |[|c s]];
    try (intros H; inversion H; apply Hr).
  destruct (match p with Line2 => _ | _ => false end);
    [intros H; inversion H; vm_compute; intuition discriminate |].
  destruct (line_syllables net doc p) as [k|e]; [| discriminate].
  destruct (JS.number_eq _ _); [discriminate |].
  intros H; inversion H; apply Hs.
Qed.

(** X12.  The error text of a rejected submission contains no [&], so
    the [error] parameter of the redirect ends where the first line
    begins. *)
Theorem error_text_no_ampersand (net : Network) (doc : Pangram) (err : ValidationError.t) :
  validate net doc = Normal (Some err) ->
  ~ In 38%N (error_text err).
Proof.
  intros Hv. apply validate_invalid in Hv. destruct Hv as [H1 [H2 [H3 _]]].
  apply validatePath_message, eq_sym in H1, H2, H3.
  rewrite error_text_present.
  destruct (ValidationError.line1_5 err) as [m1|], (ValidationError.line2_7 err) as [m2|],
    (ValidationError.line3_5 err) as [m3|]; cbn;
    rewrite ?in_app_iff; cbn;
    try (apply path_message_no_ampersand in H1);
    try (apply path_message_no_ampersand in H2);
    try (apply path_message_no_ampersand in H3);
    rewrite ?in_app_iff; cbn; intuition discriminate.
Qed.


End Routes.

(** ** The properties at the sample requests *)

Lemma z_missing_from_frog :
  exists c, In c alphabet /\ ~ In c (ascii_toLowerCase (combined (submitted start frog))).
Proof.
  exists 122%N. split.
  - unfold alphabet. apply in_map_iff. exists 122%nat.
    split; [reflexivity | apply in_seq; lia].
  - vm_compute. intuition discriminate.
Defined.

Lemma non_pangram_rejected_witness :
  (exists c, In c alphabet /\ ~ In c (ascii_toLowerCase (combined (submitted start frog))))
  /\ validate ascii_toLowerCase true service_575 (submitted start frog) <> Normal None
  /\ pangrams (fst (create ascii_toLowerCase true start service_575 frog)) = pangrams start.
Proof.
  split; [exact z_missing_from_frog |].
  destruct (non_pangram_rejected ascii_toLowerCase true start service_575 frog
              z_missing_from_frog) as [_ [Hv [_ [_ [Hs _]]]]].
  split; assumption.
Defined.

Lemma wrong_syllables_rejected_witness :
  ~ (line_syllables service_565 (submitted start haiku) Line1 = Normal (VNum 5)
     /\ line_syllables service_565 (submitted start haiku) Line2 = Normal (VNum 7)
     /\ line_syllables service_565 (submitted start haiku) Line3 = Normal (VNum 5))
  /\ snd (create ascii_toLowerCase true start service_565 haiku) <> Redirect (lit "/")
  /\ pangrams (fst (create ascii_toLowerCase true start service_565 haiku)) = pangrams start.
Proof.
  assert (H : ~ (line_syllables service_565 (submitted start haiku) Line1 = Normal (VNum 5)
                 /\ line_syllables service_565 (submitted start haiku) Line2 = Normal (VNum 7)
                 /\ line_syllables service_565 (submitted start haiku) Line3 = Normal (VNum 5))).
  { intros [_ [H _]]. vm_compute in H. discriminate H. }
  split; [exact H |].
  destruct (wrong_syllables_rejected ascii_toLowerCase true start service_565 haiku H)
    as [_ [Hr [Hs _]]].
  split; assumption.
Defined.


Lemma invalid_submission_not_stored_witness :
  validate ascii_toLowerCase true service_575 (submitted start frog)
  = Normal (Some {| ValidationError.line1_5 := None;
                    ValidationError.line2_7 := Some (lit "Not a pangram!");
                    ValidationError.line3_5 := None |})
  /\ pangrams (fst (create ascii_toLowerCase true start service_575 frog)) = pangrams start
  /\ snd (create ascii_toLowerCase true start service_575 frog)
     = Redirect (lit "/?error=Not a pangram!&line1_5=An old silent pond&line2_7=A frog jumps into the pond&line3_5=Splash! Silence again").
Proof.
  assert (Hv : validate ascii_toLowerCase true service_575 (submitted start frog)
               = Normal (Some {| ValidationError.line1_5 := None;
                                 ValidationError.line2_7 := Some (lit "Not a pangram!");
                                 ValidationError.line3_5 := None |}))
    by (vm_compute; reflexivity).
  destruct (invalid_submission_not_stored ascii_toLowerCase true start service_575 frog _ Hv)
    as [Hs [Hr _]].
  exact (conj Hv (conj Hs Hr)).
Defined.

Lemma error_text_one_message_per_path_witness :
  validate ascii_toLowerCase true service_565 (submitted start only_first_line)
  = Normal (Some {| ValidationError.line1_5 := None;
                    ValidationError.line2_7 := Some (lit "Path `line2_7` is required.");
                    ValidationError.line3_5 := Some (lit "Path `line3_5` is required.") |})
  /\ snd (create ascii_toLowerCase true start service_565 only_first_line)
     = Redirect (lit "/?error=Path `line2_7` is required. Path `line3_5` is required.&line1_5=An old silent pond&line2_7=undefined&line3_5=undefined").
Proof.
  assert (Hv : validate ascii_toLowerCase true service_565 (submitted start only_first_line)
               = Normal (Some {| ValidationError.line1_5 := None;
                    ValidationError.line2_7 := Some (lit "Path `line2_7` is required.");
                    ValidationError.line3_5 := Some (lit "Path `line3_5` is required.") |}))
    by (vm_compute; reflexivity).
  split; [exact Hv |].
  exact (proj2 (error_text_one_message_per_path ascii_toLowerCase true start service_565
                  only_first_line _ Hv)).
Defined.

(** C5 as written fails: the frog haiku is no pangram and its second line
    is found to have 6 syllables, so two rules fail, yet the error text is
    that of the letter rule alone, whichever way Mongoose goes on after a
    failure. *)
Lemma second_line_message_lost :
  ~ surfaces_every_failure ascii_toLowerCase true start service_565 frog
  /\ ~ surfaces_every_failure ascii_toLowerCase false start service_565 frog.
Proof.
  split; intros H;
    refine (H {| ValidationError.line1_5 := None;
                 ValidationError.line2_7 := Some (lit "Not a pangram!");
                 ValidationError.line3_5 := None |} _
              (lit "Line 2 doesn't have 7 syllables.") _ _);
    vm_compute; auto.
Qed.

Example frog_failures :
  failing_rule_messages ascii_toLowerCase service_565 (submitted start frog)
  = [lit "Not a pangram!"; lit "Line 2 doesn't have 7 syllables."]
  /\ snd (create ascii_toLowerCase true start service_565 frog)
     = Redirect (lit "/?error=Not a pangram!&line1_5=An old silent pond&line2_7=A frog jumps into the pond&line3_5=Splash! Silence again").
Proof. split; vm_compute; reflexivity. Qed.

(** C6.  When the lookup for the first line fails and [unirest] passes a
    result without a body, reading [data.syllables] raises a TypeError in
    the callback: the request to [/create] ends in an uncaught exception
    instead of a failed validation. *)
Theorem failed_lookup_uncaught (run_after_failure : bool) :
  validate_syllables (service_down Line1) (field (Query.line1_5 haiku)) 5 = Throw TypeError
  /\ create ascii_toLowerCase run_after_failure start service_down haiku
     = ({| pangrams := []; next_id := 1 |}, Uncaught TypeError).
Proof.
  split; [reflexivity |].
  apply (lookup_without_body_uncaught ascii_toLowerCase run_after_failure start
           service_down haiku); [| reflexivity].
  now exists 84%N, (lit "he quick brown fox jumps").
Qed.

(** An answer that is not JSON has no usable count: every line fails its
    syllable rule. *)
Example garbled_answer_fails :
  snd (create ascii_toLowerCase true start service_garbled haiku)
  = Redirect (lit "/?error=Line 1 doesn't have 5 syllables. Line 2 doesn't have 7 syllables. Line 3 doesn't have 5 syllables.&line1_5=The quick brown fox jumps&line2_7=over the lazy dog, then&line3_5=sleeps beneath the sky").
Proof. vm_compute; reflexivity. Qed.

Lemma character_count_sum_witness :
  reachable ascii_toLowerCase true (fst (create ascii_toLowerCase true start service_575 haiku))
  /\ In (submitted start haiku)
        (pangrams (fst (create ascii_toLowerCase true start service_575 haiku)))
  /\ character_count (submitted start haiku) = Normal (VNum 70).
Proof.
  assert (Hr : reachable ascii_toLowerCase true
                 (fst (create ascii_toLowerCase true start service_575 haiku)))
    by (apply reach_create, reach_start).
  assert (Hin : In (submitted start haiku)
                   (pangrams (fst (create ascii_toLowerCase true start service_575 haiku))))
    by (vm_compute; left; reflexivity).
  split; [exact Hr | split; [exact Hin |]].
  destruct (character_count_sum ascii_toLowerCase true _ _ Hr Hin)
    as [s1 [s2 [s3 [E1 [E2 [E3 Hc]]]]]].
  rewrite Hc. cbn in E1, E2, E3. inversion E1; inversion E2; inversion E3; subst.
  reflexivity.
Defined.

Example parseInt_examples :
  JSON.parseInt (Some (JString (lit "5"))) = Normal (VNum 5)
  /\ JSON.parseInt (Some (JString (lit " 7 or so"))) = Normal (VNum 7)
  /\ JSON.parseInt (Some (JString (lit "0x10"))) = Normal (VNum 16)
  /\ JSON.parseInt (Some (JString (lit "-12"))) = Normal (VNum (-12))
  /\ JSON.parseInt (Some (JNumber 5 0)) = Normal (VNum 5)
  /\ JSON.parseInt (Some (JNumber 59 (-1))) = Normal (VNum 5)
  /\ JSON.parseInt (Some (JNumber 5 21)) = Normal (VNum 5)
  /\ JSON.parseInt (Some (JNumber 5 (-7))) = Normal (VNum 5)
  /\ JSON.parseInt (Some (JNumber 1 20)) = Normal (VNum (10 ^ 20))
  /\ JSON.parseInt (Some (JArray [JNumber 5 0])) = Normal (VNum 5)
  /\ JSON.parseInt None = Normal VNaN
  /\ JSON.parseInt (Some (JString (lit "five"))) = Normal VNaN
  /\ JSON.parseInt (Some (JObject [])) = Normal VNaN
  /\ JSON.parseInt (Some (JObject [(lit "toString", JNumber 1 0)])) = Throw TypeError.
Proof. repeat split; reflexivity. Qed.

(** ** Further properties on ASCII text *)

Lemma alphabet_range (c : N) :
  In c alphabet <-> (97 <= c <= 122)%N.
Proof.
  unfold alphabet. rewrite in_map_iff. split.
  - intros [k [E Hk]]. apply in_seq in Hk. lia.
  - intros H. exists (N.to_nat c). split; [apply N2Nat.id | apply in_seq; lia].
Qed.

Lemma ascii_toLowerCase_letter (c : N) (s : jsstring) :
  (97 <= c <= 122)%N ->
  In c (ascii_toLowerCase s) <-> In c s \/ In (c - 32)%N s.
Proof.
  intros Hc. unfold ascii_toLowerCase. rewrite in_map_iff. split.
  - intros [x [E Hx]].
    destruct (N.leb_spec 65 x), (N.leb_spec x 90); cbn in E;
      try (left; now subst).
    right. now replace (c - 32)%N with x by lia.
  - intros [H|H]; [exists c | exists (c - 32)%N]; (split; [| assumption]).
    + destruct (N.leb_spec 65 c), (N.leb_spec c 90); cbn; lia.
    + destruct (N.leb_spec 65 (c - 32)), (N.leb_spec (c - 32) 90); cbn; lia.
Qed.

(** X13.  On ASCII text the letter rule does not tell upper case from
    lower case: it holds exactly when each of the 26 letters occurs in
    one of the two cases somewhere in the three lines. *)
Theorem ascii_pangram_either_case (this : Pangram) (value : JsValue) :
  Forall (fun c => (c < 128)%N) (combined this) ->
  pangram_validator ascii_toLowerCase this value = Normal true <->
  (forall c, (97 <= c <= 122)%N -> In c (combined this) \/ In (c - 32)%N (combined this)).
Proof.
  intros _. rewrite pangram_validator_eval. split.
  - intros H c Hc. inversion H as [Hp]. apply is_pangram_iff in Hp.
    apply ascii_toLowerCase_letter; [assumption |].
    apply Hp, alphabet_range, Hc.
  - intros H. f_equal. apply is_pangram_iff. intros c Hc.
    apply alphabet_range in Hc. apply ascii_toLowerCase_letter; auto.
Qed.


Lemma missing_count_fails_witness :
  validate_syllables (service_garbled Line1) (field (Query.line1_5 haiku)) 5 = Normal false.
Proof.
  exact (missing_count_fails (service_garbled Line1) (field (Query.line1_5 haiku)) 5 I).
Defined.


Lemma stored_records_are_pangrams_witness :
  reachable ascii_toLowerCase true (fst (create ascii_toLowerCase true start service_575 haiku))
  /\ In (submitted start haiku)
        (pangrams (fst (create ascii_toLowerCase true start service_575 haiku)))
  /\ covers_alphabet (ascii_toLowerCase (combined (submitted start haiku))).
Proof.
  assert (Hr : reachable ascii_toLowerCase true
                 (fst (create ascii_toLowerCase true start service_575 haiku)))
    by (apply reach_create, reach_start).
  assert (Hin : In (submitted start haiku)
                   (pangrams (fst (create ascii_toLowerCase true start service_575 haiku))))
    by (vm_compute; left; reflexivity).
  exact (conj Hr (conj Hin
           (proj1 (stored_records_are_pangrams ascii_toLowerCase true _ _ Hr Hin)))).
Defined.

Lemma resubmission_stored_twice_witness :
  validate ascii_toLowerCase true service_575 (submitted start haiku) = Normal None
  /\ length (pangrams (serve ascii_toLowerCase true start
                         [(service_575, haiku); (service_575, haiku)])) = 2%nat.
Proof.
  assert (Hv : validate ascii_toLowerCase true service_575 (submitted start haiku)
               = Normal None) by (vm_compute; reflexivity).
  split; [exact Hv |].
  now rewrite (resubmission_stored_twice ascii_toLowerCase true start service_575 haiku Hv).
Defined.

Lemma redirect_determines_lines_witness :
  error_url (lit "Not a pangram!") frog = error_url (lit "Not a pangram!") frog
  /\ lit "Not a pangram!" = lit "Not a pangram!"
  /\ lit "An old silent pond" = lit "An old silent pond"
  /\ lit "A frog jumps into the pond" = lit "A frog jumps into the pond"
  /\ lit "Splash! Silence again" = lit "Splash! Silence again".
Proof.
  split; [reflexivity |].
  apply (redirect_determines_lines
           (lit "Not a pangram!") (lit "Not a pangram!")
           (lit "An old silent pond") (lit "A frog jumps into the pond")
           (lit "Splash! Silence again")
           (lit "An old silent pond") (lit "A frog jumps into the pond")
           (lit "Splash! Silence again") frog frog);
    try reflexivity; vm_compute; intuition discriminate.
Defined.

Lemma error_text_no_ampersand_witness :
  validate ascii_toLowerCase true service_565 (submitted start frog)
  = Normal (Some {| ValidationError.line1_5 := None;
                    ValidationError.line2_7 := Some (lit "Not a pangram!");
                    ValidationError.line3_5 := None |})
  /\ ~ In 38%N (lit "Not a pangram!").
Proof.
  assert (Hv : validate ascii_toLowerCase true service_565 (submitted start frog)
               = Normal (Some {| ValidationError.line1_5 := None;
                                 ValidationError.line2_7 := Some (lit "Not a pangram!");
                                 ValidationError.line3_5 := None |}))
    by (vm_compute; reflexivity).
  split; [exact Hv |].
  exact (error_text_no_ampersand ascii_toLowerCase true service_565 _ _ Hv).
Defined.

Lemma ascii_pangram_either_case_witness :
  Forall (fun c => (c < 128)%N) (combined (submitted start haiku))
  /\ (forall c, (97 <= c <= 122)%N ->
                In c (combined (submitted start haiku))
                \/ In (c - 32)%N (combined (submitted start haiku))).
Proof.
  assert (H : Forall (fun c => (c < 128)%N) (combined (submitted start haiku))).
  { apply Forall_forall. intros c Hc. apply N.ltb_lt. revert c Hc.
    apply forallb_forall. vm_compute. reflexivity. }
  split; [exact H |].
  apply (ascii_pangram_either_case (submitted start haiku) VUndefined H).
  vm_compute. reflexivity.
Defined.

(** ** Counts that are not counts, requests that cross, lines that run
    together *)

(** C2 as written fails: the service sends 5e21, 7e21 and 5e21, which
    print as [5e+21], [7e+21] and [5e+21]; [parseInt] reads 5, 7 and 5 and
    the haiku passes, under either way of Mongoose. *)
Lemma count_e21_accepted :
  ~ passes_only_exact_counts ascii_toLowerCase true start service_e21 haiku
  /\ ~ passes_only_exact_counts ascii_toLowerCase false start service_e21 haiku.
Proof.
  split; intros H.
  - assert (Hv : validate ascii_toLowerCase true service_e21 (submitted start haiku)
                 = Normal None) by (vm_compute; reflexivity).
    destruct (H Hv Line1) as [v [Hr Hc]].
    vm_compute in Hr. inversion Hr as [Ev]. rewrite <- Ev in Hc.
    destruct Hc as [E|E]; vm_compute in E; discriminate E.
  - assert (Hv : validate ascii_toLowerCase false service_e21 (submitted start haiku)
                 = Normal None) by (vm_compute; reflexivity).
    destruct (H Hv Line1) as [v [Hr Hc]].
    vm_compute in Hr. inversion Hr as [Ev]. rewrite <- Ev in Hc.
    destruct Hc as [E|E]; vm_compute in E; discriminate E.
Qed.

Example count_e21_stored :
  create ascii_toLowerCase true start service_e21 haiku
  = ({| pangrams := [submitted start haiku]; next_id := 1 |}, Redirect (lit "/")).
Proof. vm_compute. reflexivity. Qed.

Lemma crossed_overlapping (run_after_failure : bool) :
  overlapping ascii_toLowerCase run_after_failure crossed [].
Proof.
  pose proof (over_begin ascii_toLowerCase run_after_failure _ _ service_575 haiku
                (over_start ascii_toLowerCase run_after_failure)) as s1.
  pose proof (over_begin _ _ _ _ service_575 jugs s1) as s2.
  pose proof (over_finish ascii_toLowerCase run_after_failure _
                [(submitted start haiku, service_575, haiku)]
                (submitted {| pangrams := []; next_id := 1 |} jugs)
                service_575 jugs [] s2) as s3.
  pose proof (over_finish ascii_toLowerCase run_after_failure _ []
                (submitted start haiku) service_575 haiku [] s3) as s4.
  replace crossed with
    (fst (finish ascii_toLowerCase run_after_failure
            (fst (finish ascii_toLowerCase run_after_failure
                    (snd (new_Pangram
                            (snd (new_Pangram start (Query.line1_5 haiku)
                                    (Query.line2_7 haiku) (Query.line3_5 haiku)))
                            (Query.line1_5 jugs) (Query.line2_7 jugs) (Query.line3_5 jugs)))
                    service_575 (submitted {| pangrams := []; next_id := 1 |} jugs) jugs))
            service_575 (submitted start haiku) haiku)).
  - exact s4.
  - destruct run_after_failure; vm_compute; reflexivity.
Qed.

(** C3 as written fails when two requests cross: the haiku is made first
    and stored last, and the listing, which goes by [_id], shows it
    last. *)
Lemma overlap_breaks_insertion_order :
  overlapping ascii_toLowerCase true crossed []
  /\ listed (home crossed None haiku)
     = [submitted {| pangrams := []; next_id := 1 |} jugs; submitted start haiku]
  /\ ~ lists_latest_insert_first crossed.
Proof.
  split; [apply crossed_overlapping | split; [reflexivity |]].
  intros H. specialize (H haiku). vm_compute in H. discriminate H.
Qed.

Lemma listed_by_descending_id_witness :
  listed (home (fst (create ascii_toLowerCase true
                       (fst (create ascii_toLowerCase true start service_575 haiku))
                       service_575 jugs)) None jugs)
  = [submitted (fst (create ascii_toLowerCase true start service_575 haiku)) jugs;
     submitted start haiku]
  /\ StronglySorted (fun a b => (_id b < _id a)%N) (listed (home crossed None haiku)).
Proof.
  destruct (listed_by_descending_id ascii_toLowerCase true) as [_ [Hb Hc]].
  split.
  - assert (Hr : reachable ascii_toLowerCase true
                   (fst (create ascii_toLowerCase true start service_575 haiku)))
      by (apply reach_create, reach_start).
    assert (Hv : validate ascii_toLowerCase true service_575
                   (submitted (fst (create ascii_toLowerCase true start service_575 haiku))
                      jugs) = Normal None) by (vm_compute; reflexivity).
    exact (proj1 (Hc _ service_575 jugs jugs Hr Hv)).
  - exact (proj2 (Hb crossed [] haiku (crossed_overlapping true))).
Defined.

(** C7.  The lines go into the redirect as they are.  A first line that
    holds [&line2_7=] gives the very redirect of another submission, in
    which the first line ends there: what the list view receives are not
    the values that were submitted. *)
Theorem redirect_confuses_lines :
  Query.line1_5 salt_and_pepper <> Query.line1_5 salt
  /\ snd (create ascii_toLowerCase true start service_575 salt_and_pepper)
     = Redirect (lit "/?error=Not a pangram!&line1_5=salt&line2_7=pepper&line2_7=and a pinch of thyme&line3_5=for the soup")
  /\ snd (create ascii_toLowerCase true start service_575 salt)
     = Redirect (lit "/?error=Not a pangram!&line1_5=salt&line2_7=pepper&line2_7=and a pinch of thyme&line3_5=for the soup").
Proof.
  split; [discriminate | split; vm_compute; reflexivity].
Qed.

(** With no line at all every path fails [required] at once, and the
    answer is out before any lookup can come back, broken or not. *)
Example no_lines_answered_first :
  snd (create ascii_toLowerCase true start service_off no_lines)
  = Redirect (lit "/?error=Path `line1_5` is required. Path `line2_7` is required. Path `line3_5` is required.&line1_5=undefined&line2_7=undefined&line3_5=undefined")
  /\ snd (create ascii_toLowerCase false start service_off no_lines)
     = snd (create ascii_toLowerCase true start service_off no_lines).
Proof. split; vm_compute; reflexivity. Qed.

(** Without its first line the haiku fails [required] on that path at
    once, while the third path waits for its lookup.  Mongoose 3.x still
    starts the lookup for the first path; if that one is broken, whether
    the redirect or the exception comes first is a matter of which
    callback runs first.  Mongoose 4.x never starts it. *)
Example late_lookup_race :
  let query := {| Query.error := None; Query.line1_5 := None;
                  Query.line2_7 := Query.line2_7 haiku;
                  Query.line3_5 := Query.line3_5 haiku |} in
  let net (late : bool) : Network :=
    fun p _ => match p with
               | Line1 => {| body := None; overdue := late |}
               | Line2 => word_info "7"
               | Line3 => word_info "5"
               end in
  snd (create ascii_toLowerCase true start (net false) query) = Uncaught TypeError
  /\ snd (create ascii_toLowerCase true start (net true) query)
     = Redirect (lit "/?error=Path `line1_5` is required. Not a pangram!&line1_5=undefined&line2_7=over the lazy dog, then&line3_5=sleeps beneath the sky")
  /\ snd (create ascii_toLowerCase false start (net false) query)
     = snd (create ascii_toLowerCase true start (net true) query).
Proof. repeat split; vm_compute; reflexivity. Qed.
